(** * plot_eeg_ecg.py: column classification, unit derivation and scene building

    A shallow embedding of [src/plot_eeg_ecg.py].  The table loaded by
    [pd.read_csv] is the input of the model; the pandas and plotly calls the
    script makes are modelled by what they do to that table and to the figure,
    including the exceptions they raise.  [main] returns the scene handed to
    [fig.write_html], or the way the script stopped before reaching it.

    Of the figure the model keeps the traces, the two vertical axes with
    their titles, and the two dropdown menus; the title, margins, hover mode
    and range slider of the layout, the confirmation line printed at the end
    and the optional opening of a browser play no part in the properties and
    are left out. *)

From stdpp Require Import base gmap strings list sorting.

Open Scope string_scope.
Open Scope nat_scope.
Open Scope list_scope.

(** ** Numbers

    The numeric values of a table are floats other than NaN.  The script only
    compares them (sorting by time), multiplies them by [1000.0] (which never
    yields NaN on such a value), and obtains them from text with
    [pd.to_numeric].  These three operations are the interface; any two
    numbers compare one way or the other. *)

Class Number := {
  num : Type;
  parse_number : string → option num;
  num_leb : num → num → bool;
  num_leb_total : ∀ u v, num_leb u v = true ∨ num_leb v u = true;
  times_1000 : num → num;
}.

Definition num_le `{Number} : relation num := λ u v, num_leb u v = true.

#[global] Instance num_le_dec `{Number} : RelDecision num_le :=
  λ u v, decide (num_leb u v = true).

#[global] Instance num_le_total `{Number} : Total num_le := num_leb_total.

(** ** Outcomes of the script *)

Inductive exn := KeyError | TypeError | IndexError | ValueError.

Inductive result (A : Type) :=
  | Ok (a : A)
  | SystemExit (msg : string)
  | Raise (e : exn).
Arguments Ok {A} a.
Arguments SystemExit {A} msg.
Arguments Raise {A} e.

#[global] Instance result_ret : MRet result := λ A a, Ok a.
#[global] Instance result_bind : MBind result := λ A B f m,
  match m with
  | Ok a => f a
  | SystemExit msg => SystemExit msg
  | Raise e => Raise e
  end.

(** [for a in l: body] over a state threaded through the iterations. *)
Fixpoint for_each {A S : Type} (l : list A) (body : A → S → result S) (s : S)
    : result S :=
  match l with
  | [] => Ok s
  | a :: l' => s' ← body a s; for_each l' body s'
  end.

(** An elementwise operation on a series; the first failing element raises. *)
Fixpoint series_map {A B : Type} (f : A → result B) (l : list A)
    : result (list B) :=
  match l with
  | [] => Ok []
  | a :: l' => b ← f a; bs ← series_map f l'; Ok (b :: bs)
  end.

(** [l[i] = v] on a Python list. *)
Definition list_setitem {A : Type} (l : list A) (i : nat) (v : A)
    : result (list A) :=
  if decide (i < length l) then Ok (<[i:=v]> l) else Raise IndexError.

(** A Python [dict] with string keys: assignment to a present key replaces the
    value where it stands, assignment to a new key appends; [items()] is the
    list itself. *)
Definition dict (V : Type) := list (string * V).

Fixpoint dict_set {V : Type} (d : dict V) (k : string) (v : V) : dict V :=
  match d with
  | [] => [(k, v)]
  | (k', v') :: d' =>
      if decide (k' = k) then (k, v) :: d' else (k', v') :: dict_set d' k v
  end.

(** ** Tables *)

(** A cell holds a number, text, or nothing. *)
Inductive cell `{Number} :=
  | Num (v : num)
  | Text (s : string)
  | NaN.

(** A table is its column labels, in order, and its rows.  A row maps
    column labels to cells; a label without a cell reads as NaN, as
    [read_csv] fills short rows.  [read_csv] renames repeated headers, so the
    labels of a table it returns are distinct; the properties of [main] are
    stated for such tables ([NoDup (columns df)]). *)
Record DataFrame `{Number} := {
  columns : list string;
  rows : list (gmap string cell);
}.

Module go.
(** [go.Scatter(x=, y=, name=, mode=, visible=, line=dict(dash=))] together
    with the axis [add_trace(..., secondary_y=)] put it on. *)
Record Scatter `{Number} := {
  x : list cell;
  y : list cell;
  name : string;
  mode : string;
  visible : option bool;
  line_dash : option string;
  secondary_y : bool;
}.
End go.

Record Figure `{Number} := {
  has_secondary_y : bool;
  data : list go.Scatter;
  yaxis_title : option string;
  yaxis2_title : option string;
}.

Inductive group := EEG | ECG_uV | ECG_mV | CM.

#[global] Instance group_eq_dec : EqDecision group.
Proof. solve_decision. Defined.

Record TraceIndices := {
  idx_EEG : list nat;
  idx_ECG_uV : list nat;
  idx_ECG_mV : list nat;
  idx_CM : list nat;
}.

Definition trace_indices_get (ti : TraceIndices) (g : group) : list nat :=
  match g with
  | EEG => idx_EEG ti
  | ECG_uV => idx_ECG_uV ti
  | ECG_mV => idx_ECG_mV ti
  | CM => idx_CM ti
  end.

Definition trace_indices_append (ti : TraceIndices) (g : group) (i : nat)
    : TraceIndices :=
  match g with
  | EEG => {| idx_EEG := idx_EEG ti ++ [i]; idx_ECG_uV := idx_ECG_uV ti;
              idx_ECG_mV := idx_ECG_mV ti; idx_CM := idx_CM ti |}
  | ECG_uV => {| idx_EEG := idx_EEG ti; idx_ECG_uV := idx_ECG_uV ti ++ [i];
                 idx_ECG_mV := idx_ECG_mV ti; idx_CM := idx_CM ti |}
  | ECG_mV => {| idx_EEG := idx_EEG ti; idx_ECG_uV := idx_ECG_uV ti;
                 idx_ECG_mV := idx_ECG_mV ti ++ [i]; idx_CM := idx_CM ti |}
  | CM => {| idx_EEG := idx_EEG ti; idx_ECG_uV := idx_ECG_uV ti;
             idx_ECG_mV := idx_ECG_mV ti; idx_CM := idx_CM ti ++ [i] |}
  end.

(** A dropdown button of [method="update"]: its label, the ["visible"] vector
    of its first argument and, for the unit toggle, the title it gives the
    right axis. *)
Record Button := {
  label : string;
  args_visible : list bool;
  args_yaxis2_title : option string;
}.

(** What [fig.write_html] receives. *)
Record Scene `{Number} := {
  fig : Figure;
  updatemenus : list (list Button);
}.

(** ** Static tables of the script *)

Definition EEG_CHANNELS : list string :=
  [ "Fz"; "Cz"; "P3"; "C3"; "F3"; "F4"; "C4"; "P4";
    "Fp1"; "Fp2"; "T3"; "T4"; "T5"; "T6";
    "O1"; "O2"; "F7"; "F8"; "A1"; "A2"; "Pz" ].

Definition ECG_CHANNELS : gmap string string :=
  <["X1:LEOG" := "ECG_Left"]> (<["X2:REOG" := "ECG_Right"]> ∅).

Definition IGNORE_EXACT : gset string :=
  {[ "Trigger"; "Time_Offset"; "ADC_Status"; "ADC_Sequence"; "Event";
     "Comments" ]}.

Definition IGNORE_PREFIXES : list string := [ "X3:" ].

(** [c.startswith(pfx)] *)
Definition startswith (c pfx : string) : bool := String.prefix pfx c.

Section Program.
Context `{Number}.

(** *** pandas *)

(** [df[c]] for one label. *)
Definition getitem (df : DataFrame) (c : string) : result (list cell) :=
  if decide (c ∈ columns df)
  then Ok ((λ r, default NaN (r !! c)) <$> rows df)
  else Raise KeyError.

(** [df[keep]] for a list of labels. *)
Definition getitem_list (df : DataFrame) (keep : list string)
    : result DataFrame :=
  if decide (Forall (λ c, c ∈ columns df) keep)
  then Ok {| columns := keep;
             rows := (λ r, filter (λ kv, kv.1 ∈ keep) r) <$> rows df |}
  else Raise KeyError.

(** [df[c] = series] for a series aligned with the rows. *)
Definition setitem (df : DataFrame) (c : string) (series : list cell)
    : DataFrame :=
  {| columns := if decide (c ∈ columns df) then columns df
                else columns df ++ [c];
     rows := zip_with (λ r v, <[c:=v]> r) (rows df) series |}.

(** [pd.to_numeric(series, errors="coerce")], one cell. *)
Definition to_numeric (c : cell) : cell :=
  match c with
  | Num v => Num v
  | Text s => match parse_number s with Some v => Num v | None => NaN end
  | NaN => NaN
  end.

Definition notna (c : cell) : bool :=
  match c with NaN => false | _ => true end.

(** [df.dropna(subset=[c])] *)
Definition dropna (df : DataFrame) (c : string) : DataFrame :=
  {| columns := columns df;
     rows := filter (λ r, notna (default NaN (r !! c)) = true) (rows df) |}.

(** The sort key of a cell: its number; cells without one sort last. *)
Definition sort_key (c : cell) : option num :=
  match c with Num v => Some v | _ => None end.

Definition key_le (a b : option num) : Prop :=
  match a, b with
  | Some u, Some v => num_le u v
  | _, None => True
  | None, Some _ => False
  end.

#[global] Instance key_le_dec : RelDecision key_le.
Proof. intros [u|] [v|]; simpl; apply _. Defined.

Definition row_le (c : string) (r1 r2 : gmap string cell) : Prop :=
  key_le (sort_key (default NaN (r1 !! c))) (sort_key (default NaN (r2 !! c))).

#[global] Instance row_le_dec c : RelDecision (row_le c).
Proof. intros r1 r2; unfold row_le; apply _. Defined.

#[global] Instance key_le_total : Total key_le.
Proof.
  intros [u|] [v|]; simpl; try tauto. apply num_leb_total.
Qed.

#[global] Instance row_le_total c : Total (row_le c).
Proof. intros r1 r2. unfold row_le. apply (total key_le). Qed.

(** [df.sort_values(c)]: the rows in ascending order of column [c].  The
    order pandas leaves between rows of equal key is not fixed; the model
    keeps them in their former order. *)
Definition sort_values (df : DataFrame) (c : string) : DataFrame :=
  {| columns := columns df; rows := merge_sort (row_le c) (rows df) |}.

(** [series * 1000.0], one cell: a str cell raises. *)
Definition cell_mul_1000 (c : cell) : result cell :=
  match c with
  | Num v => Ok (Num (times_1000 v))
  | Text _ => Raise TypeError
  | NaN => Ok NaN
  end.

(** *** plotly *)

(** [make_subplots(specs=[[{"secondary_y": b}]])] *)
Definition make_subplots (b : bool) : Figure :=
  {| has_secondary_y := b; data := []; yaxis_title := None;
     yaxis2_title := None |}.

(** [fig.add_trace(tr, secondary_y=b)]: a figure made without the right
    axis refuses a trace for it. *)
Definition on_axis (tr : go.Scatter) (b : bool) : go.Scatter :=
  {| go.x := go.x tr; go.y := go.y tr; go.name := go.name tr;
     go.mode := go.mode tr; go.visible := go.visible tr;
     go.line_dash := go.line_dash tr; go.secondary_y := b |}.

Definition add_trace (fg : Figure) (tr : go.Scatter) (b : bool)
    : result Figure :=
  if b && negb (has_secondary_y fg) then Raise ValueError
  else Ok {| has_secondary_y := has_secondary_y fg;
             data := data fg ++ [on_axis tr b];
             yaxis_title := yaxis_title fg;
             yaxis2_title := yaxis2_title fg |}.

(** [fig.update_yaxes(title_text=t, secondary_y=b)] *)
Definition update_yaxes (fg : Figure) (t : string) (b : bool) : Figure :=
  if b
  then {| has_secondary_y := has_secondary_y fg; data := data fg;
          yaxis_title := yaxis_title fg;
          yaxis2_title := if has_secondary_y fg then Some t
                          else yaxis2_title fg |}
  else {| has_secondary_y := has_secondary_y fg; data := data fg;
          yaxis_title := Some t; yaxis2_title := yaxis2_title fg |}.

Definition Scatter (xs ys : list cell) (nm : string) (vis : option bool)
    (dash : option string) : go.Scatter :=
  {| go.x := xs; go.y := ys; go.name := nm; go.mode := "lines";
     go.visible := vis; go.line_dash := dash; go.secondary_y := false |}.

(** *** The script *)

Definition ignored (tcol c : string) : bool :=
  bool_decide (c = tcol)
  || bool_decide (c ∈ IGNORE_EXACT)
  || existsb (startswith c) IGNORE_PREFIXES.

Definition filter_columns (df : DataFrame) (tcol : string)
    : result DataFrame :=
  let keep := tcol :: filter (λ c, ignored tcol c = false) (columns df) in
  getitem_list df keep.

Definition split_roles (cols : list string)
    : list string * list string * list string :=
  let eeg := filter (λ c, c ∈ EEG_CHANNELS) cols in
  let ecg_raw := filter (λ c, is_Some (ECG_CHANNELS !! c)) cols in
  let cm := filter (λ c, c = "CM") cols in
  (eeg, ecg_raw, cm).

(** The body of the loop deriving the two ECG series of a raw column. *)
Definition derive_ecg (df : DataFrame) (raw : string)
    (st : dict (list cell) * dict (list cell))
    : result (dict (list cell) * dict (list cell)) :=
  let '(ecg_uv, ecg_mv) := st in
  nice ← (match ECG_CHANNELS !! raw with
          | Some n => Ok n
          | None => Raise KeyError
          end);
  series ← getitem df raw;
  scaled ← series_map cell_mul_1000 series;
  let ecg_uv := dict_set ecg_uv (nice +:+ " (μV)") scaled in
  series ← getitem df raw;
  let ecg_mv := dict_set ecg_mv (nice +:+ " (mV)") series in
  Ok (ecg_uv, ecg_mv).

(** The bodies of the four loops adding traces and tracking their index. *)
Definition add_eeg (df : DataFrame) (tcol ch : string)
    (st : Figure * TraceIndices) : result (Figure * TraceIndices) :=
  let '(fg, ti) := st in
  xs ← getitem df tcol;
  ys ← getitem df ch;
  fg ← add_trace fg (Scatter xs ys ch None None) false;
  Ok (fg, trace_indices_append ti EEG (length (data fg) - 1)).

Definition add_cm (df : DataFrame) (tcol ch : string)
    (st : Figure * TraceIndices) : result (Figure * TraceIndices) :=
  let '(fg, ti) := st in
  xs ← getitem df tcol;
  ys ← getitem df ch;
  fg ← add_trace fg
         (Scatter xs ys "CM (μV, reference)" None (Some "dot")) true;
  Ok (fg, trace_indices_append ti CM (length (data fg) - 1)).

Definition add_ecg_mv (df : DataFrame) (tcol : string)
    (item : string * list cell)
    (st : Figure * TraceIndices) : result (Figure * TraceIndices) :=
  let '(fg, ti) := st in
  xs ← getitem df tcol;
  fg ← add_trace fg (Scatter xs item.2 item.1 None None) true;
  Ok (fg, trace_indices_append ti ECG_mV (length (data fg) - 1)).

Definition add_ecg_uv (df : DataFrame) (tcol : string)
    (item : string * list cell)
    (st : Figure * TraceIndices) : result (Figure * TraceIndices) :=
  let '(fg, ti) := st in
  xs ← getitem df tcol;
  fg ← add_trace fg (Scatter xs item.2 item.1 (Some false) None) true;
  Ok (fg, trace_indices_append ti ECG_uV (length (data fg) - 1)).

(** [for i in indices: vis[i] = v] *)
Definition set_all (indices : list nat) (v : bool) (vis : list bool)
    : result (list bool) :=
  for_each indices (λ i vis, list_setitem vis i v) vis.

Definition unit_mode_visibility (fg : Figure) (ti : TraceIndices)
    (mode : string) : result (list bool) :=
  let vis := (λ tr, match go.visible tr with
                    | Some b => b
                    | None => true
                    end) <$> data fg in
  if decide (mode = "mV")
  then vis ← set_all (trace_indices_get ti ECG_mV) true vis;
       set_all (trace_indices_get ti ECG_uV) false vis
  else vis ← set_all (trace_indices_get ti ECG_mV) false vis;
       set_all (trace_indices_get ti ECG_uV) true vis.

Definition main (df : DataFrame) : result Scene :=
  let tcol := "Time" in
  if decide (tcol ∉ columns df)
  then SystemExit "Expected 'Time' column not found."
  else
  time ← getitem df tcol;
  let df := setitem df tcol (to_numeric <$> time) in
  let df := sort_values (dropna df tcol) tcol in
  df ← filter_columns df tcol;
  let data_cols := filter (λ c, c ≠ tcol) (columns df) in
  let '(eeg_cols, ecg_raw_cols, cm_cols) := split_roles data_cols in
  if bool_decide (eeg_cols = []) && bool_decide (ecg_raw_cols = [])
     && bool_decide (cm_cols = [])
  then SystemExit "No EEG/ECG/CM columns found after filtering. Check headers."
  else
  '(ecg_uv, ecg_mv) ← for_each ecg_raw_cols (derive_ecg df) ([], []);
  let use_secondary := bool_decide (0 < length ecg_uv + length cm_cols) in
  let fg := make_subplots use_secondary in
  let trace_indices :=
    {| idx_EEG := []; idx_ECG_uV := []; idx_ECG_mV := []; idx_CM := [] |} in
  st ← for_each eeg_cols (add_eeg df tcol) (fg, trace_indices);
  st ← for_each cm_cols (add_cm df tcol) st;
  st ← for_each ecg_mv (add_ecg_mv df tcol) st;
  '(fg, trace_indices) ← for_each ecg_uv (add_ecg_uv df tcol) st;
  let fg := update_yaxes fg "EEG & CM (μV)" false in
  let fg := if use_secondary
            then update_yaxes fg "ECG (mV) / CM (μV)" true else fg in
  let total_traces := length (data fg) in
  let visibility_all := replicate total_traces true in
  vis_eeg_only ← set_all (trace_indices_get trace_indices EEG) true
                   (replicate total_traces false);
  vis_other_only ←
    for_each [CM; ECG_mV; ECG_uV]
      (λ grp vis,
         for_each (trace_indices_get trace_indices grp)
           (λ i vis, if decide (grp = ECG_uV) then Ok vis
                     else list_setitem vis i true) vis)
      (replicate total_traces false);
  vis_mv ← unit_mode_visibility fg trace_indices "mV";
  vis_uv ← unit_mode_visibility fg trace_indices "uV";
  Ok {| fig := fg;
        updatemenus :=
          [ [ {| label := "All"; args_visible := visibility_all;
                 args_yaxis2_title := None |};
              {| label := "EEG only"; args_visible := vis_eeg_only;
                 args_yaxis2_title := None |};
              {| label := "ECG+CM only"; args_visible := vis_other_only;
                 args_yaxis2_title := None |} ];
            [ {| label := "ECG in mV"; args_visible := vis_mv;
                 args_yaxis2_title := Some "ECG (mV) / CM (μV)" |};
              {| label := "ECG in μV"; args_visible := vis_uv;
                 args_yaxis2_title := Some "ECG (μV) / CM (μV)" |} ] ] |}.

End Program.

(** ** Notions used to state the properties

    Everything here is built from the functions above: the table as it stands
    after the time column is coerced, cleared of missing values and sorted
    (lines 58-59), the columns [filter_columns] keeps besides the time column,
    their roles, and the trace each loop of [main] builds for a column. *)

Section Notions.
Context `{Number}.

Definition cleaned (df : DataFrame) : DataFrame :=
  let time := (λ r, default NaN (r !! "Time")) <$> rows df in
  sort_values (dropna (setitem df "Time" (to_numeric <$> time)) "Time") "Time".

(** [df[c]] read from the cleaned table. *)
Definition series (df : DataFrame) (c : string) : list cell :=
  (λ r, default NaN (r !! c)) <$> rows (cleaned df).

Definition data_cols (df : DataFrame) : list string :=
  filter (λ c, ignored "Time" c = false) (columns df).

Definition eeg_cols (df : DataFrame) : list string :=
  (split_roles (data_cols df)).1.1.
Definition ecg_raw_cols (df : DataFrame) : list string :=
  (split_roles (data_cols df)).1.2.
Definition cm_cols (df : DataFrame) : list string :=
  (split_roles (data_cols df)).2.

(** [ECG_CHANNELS[raw]] for a key of the table. *)
Definition nice (raw : string) : string := default "" (ECG_CHANNELS !! raw).

Definition is_text (c : cell) : bool :=
  match c with Text _ => true | _ => false end.

(** The value of [c * 1000.0] where it is defined. *)
Definition scaled (c : cell) : cell :=
  match c with Num v => Num (times_1000 v) | _ => c end.

Definition eeg_trace (df : DataFrame) (ch : string) : go.Scatter :=
  on_axis (Scatter (series df "Time") (series df ch) ch None None) false.

Definition cm_trace (df : DataFrame) (ch : string) : go.Scatter :=
  on_axis (Scatter (series df "Time") (series df ch) "CM (μV, reference)"
             None (Some "dot")) true.

Definition ecg_mv_trace (df : DataFrame) (raw : string) : go.Scatter :=
  on_axis (Scatter (series df "Time") (series df raw) (nice raw +:+ " (mV)")
             None None) true.

Definition ecg_uv_trace (df : DataFrame) (raw : string) : go.Scatter :=
  on_axis (Scatter (series df "Time") (scaled <$> series df raw)
             (nice raw +:+ " (μV)") (Some false) None) true.

(** The traces of a group, in the order of the table's columns. *)
Definition traces_of (df : DataFrame) (g : group) : list go.Scatter :=
  match g with
  | EEG => eeg_trace df <$> eeg_cols df
  | CM => cm_trace df <$> cm_cols df
  | ECG_mV => ecg_mv_trace df <$> ecg_raw_cols df
  | ECG_uV => ecg_uv_trace df <$> ecg_raw_cols df
  end.

(** Whether a trace is drawn: [visible] left unset means drawn. *)
Definition shown (tr : go.Scatter) : bool :=
  match go.visible tr with Some b => b | None => true end.

(** Every ECG column holds numbers or missing values on the rows that
    survive the cleaning of the time column. *)
Definition ecg_numeric (df : DataFrame) : Prop :=
  Forall (λ raw, Forall (λ c, is_text c = false) (series df raw))
         (ecg_raw_cols df).

#[global] Instance ecg_numeric_dec df : Decision (ecg_numeric df).
Proof. unfold ecg_numeric. apply _. Defined.

(** The viewer applying a button of [method="update"]: the ["visible"]
    vector of the button replaces the visibility of all traces. *)
Definition select (b : Button) (current : list bool) : list bool :=
  args_visible b.

End Notions.

(** ** Closed forms

    What the loops of [main] compute, written without loops.  The properties
    below are proved by showing that [main] returns [expected_scene]. *)

Section ClosedForms.
Context `{Number}.

(** A row with its time coerced (line 58). *)
Definition coerce (r : gmap string cell) : gmap string cell :=
  <["Time" := to_numeric (default NaN (r !! "Time"))]> r.

(** The rows that survive [dropna] (line 59), before sorting. *)
Definition kept_rows (df : DataFrame) : list (gmap string cell) :=
  filter (λ r, notna (default NaN (r !! "Time")) = true) (coerce <$> rows df).

(** The table [filter_columns] returns on the cleaned table. *)
Definition final (df : DataFrame) : DataFrame :=
  {| columns := "Time" :: data_cols df;
     rows := (λ r, filter (λ kv, kv.1 ∈ "Time" :: data_cols df) r)
               <$> rows (cleaned df) |}.

(** The items of [ecg_uv] and [ecg_mv] after the deriving loop. *)
Definition ecg_items (df : DataFrame) (unit : string)
    (val : string → list cell) : dict (list cell) :=
  (λ raw, (nice raw +:+ unit, val raw)) <$> ecg_raw_cols df.

Definition with_data (fg : Figure) (d : list go.Scatter) : Figure :=
  {| has_secondary_y := has_secondary_y fg; data := d;
     yaxis_title := yaxis_title fg; yaxis2_title := yaxis2_title fg |}.

(** One iteration of a trace-adding loop. *)
Definition push (g : group) (st : Figure * TraceIndices) (tr : go.Scatter)
    : Figure * TraceIndices :=
  (with_data st.1 (data st.1 ++ [tr]),
   trace_indices_append st.2 g (length (data st.1))).

Definition extend (ti : TraceIndices) (g : group) (idxs : list nat)
    : TraceIndices :=
  foldl (λ ti i, trace_indices_append ti g i) ti idxs.

(** A visibility vector constant on each of the four blocks of traces. *)
Definition vec (ne nc nm nu : nat) (be bc bm bu : bool) : list bool :=
  replicate ne be ++ replicate nc bc ++ replicate nm bm ++ replicate nu bu.

Definition block_vector (df : DataFrame) (be bc bm bu : bool) : list bool :=
  vec (length (eeg_cols df)) (length (cm_cols df))
      (length (ecg_raw_cols df)) (length (ecg_raw_cols df)) be bc bm bu.

Definition all_traces (df : DataFrame) : list go.Scatter :=
  traces_of df EEG ++ traces_of df CM ++ traces_of df ECG_mV
  ++ traces_of df ECG_uV.

Definition use_secondary (df : DataFrame) : bool :=
  bool_decide (0 < length (ecg_raw_cols df) + length (cm_cols df)).

Definition expected_scene (df : DataFrame) : Scene :=
  {| fig :=
       {| has_secondary_y := use_secondary df;
          data := all_traces df;
          yaxis_title := Some "EEG & CM (μV)";
          yaxis2_title := if use_secondary df
                          then Some "ECG (mV) / CM (μV)" else None |};
     updatemenus :=
       [ [ {| label := "All";
              args_visible := block_vector df true true true true;
              args_yaxis2_title := None |};
           {| label := "EEG only";
              args_visible := block_vector df true false false false;
              args_yaxis2_title := None |};
           {| label := "ECG+CM only";
              args_visible := block_vector df false true true false;
              args_yaxis2_title := None |} ];
         [ {| label := "ECG in mV";
              args_visible := block_vector df true true true false;
              args_yaxis2_title := Some "ECG (mV) / CM (μV)" |};
           {| label := "ECG in μV";
              args_visible := block_vector df true true false true;
              args_yaxis2_title := Some "ECG (μV) / CM (μV)" |} ] ] |}.

Definition no_roles (df : DataFrame) : Prop :=
  eeg_cols df = [] ∧ ecg_raw_cols df = [] ∧ cm_cols df = [].

#[global] Instance no_roles_dec df : Decision (no_roles df).
Proof. unfold no_roles. apply _. Defined.

(** The fields that tell the four kinds of trace apart. *)
Definition kind_fields (tr : go.Scatter) : bool * option string * option bool :=
  (go.secondary_y tr, go.line_dash tr, go.visible tr).

(** A name that one of the three role tests of [split_roles] accepts. *)
Definition role_name (c : string) : Prop :=
  c ∈ EEG_CHANNELS ∨ is_Some (ECG_CHANNELS !! c) ∨ c = "CM".

(** Whether a button leaves the visibility of the EEG and Reference traces
    as it is in [current]. *)
Definition non_ecg_preserved (df : DataFrame) (s : Scene)
    (current : list bool) (b : Button) : Prop :=
  ∀ i tr, data (fig s) !! i = Some tr →
          tr ∈ traces_of df EEG ∨ tr ∈ traces_of df CM →
          select b current !! i = current !! i.

End ClosedForms.

(** ** Classification as the specification words it

    A role for every column name: the ignore rule first, then the three
    membership rules; a name matching none has no productive role. *)

Inductive role := Role_EEG | Role_ECG_raw | Role_Reference | Role_Ignored.

#[global] Instance role_eq_dec : EqDecision role.
Proof. solve_decision. Defined.

Definition dropped (c : string) : bool :=
  bool_decide (c ∈ IGNORE_EXACT) || existsb (startswith c) IGNORE_PREFIXES.

Definition classify (c : string) : role :=
  if dropped c then Role_Ignored
  else if bool_decide (c ∈ EEG_CHANNELS) then Role_EEG
  else if bool_decide (is_Some (ECG_CHANNELS !! c)) then Role_ECG_raw
  else if bool_decide (c = "CM") then Role_Reference
  else Role_Ignored.

(** ** Further notions

    Used by the properties of the functions beyond the scene. *)

(** The names [main] can give a trace. *)
Definition trace_labels : list string :=
  EEG_CHANNELS ++ ["CM (μV, reference)"] ++ ["ECG_Left (mV)"; "ECG_Right (mV)"]
  ++ ["ECG_Left (μV)"; "ECG_Right (μV)"].

(** Everything of a trace but its values. *)
Definition style `{Number} (tr : go.Scatter)
    : string * string * option bool * option string * bool :=
  (go.name tr, go.mode tr, go.visible tr, go.line_dash tr, go.secondary_y tr).

(** The points of a trace. *)
Definition points `{Number} (tr : go.Scatter) : list (cell * cell) :=
  zip (go.x tr) (go.y tr).

(** ** A concrete instance: integer-valued tables

    Integers with their order stand for the numbers; text made of decimal
    digits parses to a number. *)

Fixpoint parse_digits (s : string) (acc : Z) : option Z :=
  match s with
  | EmptyString => Some acc
  | String a s' =>
      let n := Z.of_nat (Ascii.nat_of_ascii a) in
      if bool_decide (48 ≤ n ≤ 57)%Z
      then parse_digits s' (10 * acc + (n - 48))%Z
      else None
  end.

Definition parse_Z (s : string) : option Z :=
  match s with
  | EmptyString => None
  | _ => parse_digits s 0%Z
  end.

#[global] Instance Z_Number : Number := {|
  num := Z;
  parse_number := parse_Z;
  num_leb := Z.leb;
  num_leb_total := λ u v,
    match Z.le_ge_cases u v with
    | or_introl Huv => or_introl (proj2 (Z.leb_le u v) Huv)
    | or_intror Hvu => or_intror (proj2 (Z.leb_le v u) Hvu)
    end;
  times_1000 := λ v, (v * 1000)%Z;
|}.

Definition Int (v : Z) : cell := Num (v : @num Z_Number).

Definition row (cells : list (string * cell)) : gmap string cell :=
  list_to_map cells.

(** A table whose ECG column holds text. *)
Definition ecg_text : DataFrame := {|
  columns := ["Time"; "X1:LEOG"];
  rows := [ row [("Time", Int 0); ("X1:LEOG", Text "abc")] ];
|}.

(** The scenario table [Time, Fz, X1:LEOG, CM, Trigger], rows out of order,
    one of them with a time that is not a number. *)
Definition scenario : DataFrame := {|
  columns := ["Time"; "Fz"; "X1:LEOG"; "CM"; "Trigger"];
  rows := [ row [("Time", Text "2"); ("Fz", Int 20); ("X1:LEOG", Int 7);
                 ("CM", Int 1); ("Trigger", Int 0)];
            row [("Time", Text "n/a"); ("Fz", Int 99); ("X1:LEOG", Int 99);
                 ("CM", Int 99); ("Trigger", Int 0)];
            row [("Time", Text "0"); ("Fz", Int 10); ("X1:LEOG", NaN);
                 ("CM", Int 3); ("Trigger", Int 1)];
            row [("Time", Text "1"); ("Fz", Int 15); ("X1:LEOG", Int 5);
                 ("CM", Int 2); ("Trigger", Int 0)] ];
|}.

(** The scenario table with its rows in the opposite order. *)
Definition scenario_reversed : DataFrame := {|
  columns := columns scenario;
  rows := reverse (rows scenario);
|}.

(** A table without ECG and Reference columns. *)
Definition eeg_only : DataFrame := {|
  columns := ["Time"; "Fz"; "Cz"; "Comments"];
  rows := [ row [("Time", Int 1); ("Fz", Int 4); ("Cz", Int 6);
                 ("Comments", Text "blink")];
            row [("Time", Int 0); ("Fz", Int 3); ("Cz", Int 5)] ];
|}.

(** A table none of whose rows has a numeric time. *)
Definition no_times : DataFrame := {|
  columns := ["Time"; "Fz"; "X1:LEOG"];
  rows := [ row [("Time", Text "n/a"); ("Fz", Int 1); ("X1:LEOG", Int 2)];
            row [("Fz", Int 3); ("X1:LEOG", Int 4)] ];
|}.

(** A figure of two ECG traces, the second hidden, and their indices. *)
Definition two_ecg_traces : Figure := {|
  has_secondary_y := true;
  data := [ on_axis (Scatter [Int 0] [Int 5] "ECG_Left (mV)" None None) true;
            on_axis (Scatter [Int 0] [Int 5000] "ECG_Left (μV)" (Some false)
                       None) true ];
  yaxis_title := None;
  yaxis2_title := None;
|}.

Definition two_ecg_indices : TraceIndices := {|
  idx_EEG := []; idx_ECG_uV := [1]; idx_ECG_mV := [0]; idx_CM := [];
|}.

(** * Properties *)

(** ** Loops and elementwise operations *)

Lemma list_setitem_lt {A : Type} (l : list A) (i : nat) (v : A) :
  i < length l → list_setitem l i v = Ok (<[i:=v]> l).
Proof. intros Hi. unfold list_setitem. by rewrite decide_True. Qed.

Lemma set_all_seq (v : bool) (l1 l2 l3 : list bool) :
  set_all (seq (length l1) (length l2)) v (l1 ++ l2 ++ l3)
  = Ok (l1 ++ replicate (length l2) v ++ l3).
Proof.
  revert l1. induction l2 as [|b l2 IH]; intros l1; [done|].
  unfold set_all in *. cbn [length seq for_each].
  rewrite list_setitem_lt by (rewrite !length_app; simpl; lia).
  cbn [mbind result_bind].
  rewrite insert_app_r_alt, Nat.sub_diag by lia. cbn [app insert list_insert].
  specialize (IH (l1 ++ [v])).
  rewrite length_app, Nat.add_1_r, <- !(assoc_L (++)) in IH.
  exact IH.
Qed.

Lemma for_each_Ok_foldl_inv {A S : Type} (I : S → Prop) (f : S → A → S)
    (body : A → S → result S) (l : list A) (s : S) :
  I s →
  (∀ a s, a ∈ l → I s → body a s = Ok (f s a) ∧ I (f s a)) →
  for_each l body s = Ok (foldl f s l) ∧ I (foldl f s l).
Proof.
  revert s. induction l as [|a l IH]; intros s Hs Hbody; [done|].
  simpl. destruct (Hbody a s) as [-> Hs']; [by left|done|]. simpl.
  apply IH; [done|]. intros a' s' Ha'. apply Hbody. by right.
Qed.

Lemma for_each_Ok_foldl {A S : Type} (f : S → A → S) (body : A → S → result S)
    (l : list A) (s : S) :
  (∀ a s, a ∈ l → body a s = Ok (f s a)) →
  for_each l body s = Ok (foldl f s l).
Proof.
  intros Hbody. apply (for_each_Ok_foldl_inv (λ _, True)); [done|].
  intros a s' Ha _. split; [by apply Hbody|done].
Qed.

Lemma for_each_skip {A S : Type} (l : list A) (s : S) :
  for_each l (λ _ s, Ok s) s = Ok s.
Proof. induction l as [|a l IH]; [done|]. simpl. exact IH. Qed.

Lemma for_each_Raise {A S : Type} (body : A → S → result S) (e : exn)
    (l : list A) (s : S) :
  (∀ a s, a ∈ l → (∃ s', body a s = Ok s') ∨ body a s = Raise e) →
  Exists (λ a, ∀ s, body a s = Raise e) l →
  for_each l body s = Raise e.
Proof.
  revert s. induction l as [|a l IH]; intros s Hbody Hex.
  - by apply Exists_nil in Hex.
  - simpl. destruct (Hbody a s) as [[s' Hs']|Hr]; [by left| |by rewrite Hr].
    rewrite Hs'. simpl. apply Exists_cons in Hex as [Ha|Hl].
    + rewrite Ha in Hs'. discriminate.
    + apply IH; [|done]. intros a' s'' Ha'. apply Hbody. by right.
Qed.

(** ** The run of [main] *)

Section Run.
Context `{Number}.

(** Unfolds what a loop has done to the figure and the tracked indices. *)
Local Ltac norm :=
  unfold with_data, make_subplots, update_yaxes;
  cbn [mbind result_bind data has_secondary_y
       yaxis_title yaxis2_title idx_EEG idx_ECG_uV idx_ECG_mV idx_CM app
       trace_indices_get fst snd];
  unfold ecg_items; rewrite <- ?list_fmap_compose, ?length_app, ?length_fmap.

Lemma cleaned_columns df :
  "Time" ∈ columns df → columns (cleaned df) = columns df.
Proof. intros Ht. unfold cleaned. simpl. by rewrite decide_True. Qed.

Lemma data_cols_columns df c : c ∈ data_cols df → c ∈ columns df.
Proof. unfold data_cols. rewrite list_elem_of_filter. tauto. Qed.

Lemma data_cols_not_time df c : c ∈ data_cols df → c ≠ "Time".
Proof.
  unfold data_cols. rewrite list_elem_of_filter. intros [Hi _] ->.
  unfold ignored in Hi. rewrite bool_decide_true in Hi by done. done.
Qed.

Lemma filter_columns_cleaned df :
  "Time" ∈ columns df → filter_columns (cleaned df) "Time" = Ok (final df).
Proof.
  intros Ht. unfold filter_columns, getitem_list.
  rewrite cleaned_columns by done. fold (data_cols df).
  rewrite decide_True; [done|].
  apply Forall_cons. split; [done|].
  apply Forall_forall. apply data_cols_columns.
Qed.

Lemma final_data_cols df :
  filter (λ c, c ≠ "Time") (columns (final df)) = data_cols df.
Proof.
  simpl. rewrite filter_cons_False by (intros Hn; by apply Hn).
  assert (Hall : Forall (λ c, c ≠ "Time") (data_cols df)).
  { apply Forall_forall. apply data_cols_not_time. }
  induction Hall as [|c l Hc _ IH]; [done|].
  rewrite filter_cons_True by done. by rewrite IH.
Qed.

Lemma getitem_final df c :
  c ∈ columns (final df) → getitem (final df) c = Ok (series df c).
Proof.
  intros Hc. unfold getitem. rewrite decide_True by done.
  f_equal. unfold series. simpl. rewrite <- list_fmap_compose.
  apply list_fmap_ext. intros _ r _. simpl. f_equal.
  rewrite map_lookup_filter. destruct (r !! c) as [v|]; [|done].
  simpl. by rewrite option_guard_True.
Qed.

Lemma roles_columns df c :
  c ∈ eeg_cols df ∨ c ∈ ecg_raw_cols df ∨ c ∈ cm_cols df →
  c ∈ columns (final df).
Proof.
  unfold eeg_cols, ecg_raw_cols, cm_cols, split_roles. simpl.
  rewrite !list_elem_of_filter. intros Hc. right. tauto.
Qed.

Lemma series_map_mul_Ok (l : list cell) :
  Forall (λ c, is_text c = false) l →
  series_map cell_mul_1000 l = Ok (scaled <$> l).
Proof.
  induction 1 as [|c l Hc _ IH]; [done|].
  simpl. rewrite IH. by destruct c.
Qed.

Lemma series_map_mul_Raise (l : list cell) :
  ¬ Forall (λ c, is_text c = false) l →
  series_map cell_mul_1000 l = Raise TypeError.
Proof.
  induction l as [|c l IH]; intros Hl.
  - destruct Hl. constructor.
  - simpl. destruct c as [v|s|]; simpl; [|done|].
    + rewrite IH; [done|]. intros Hf. apply Hl. by constructor.
    + rewrite IH; [done|]. intros Hf. apply Hl. by constructor.
Qed.

Lemma dict_set_fresh {V : Type} (d : dict V) (k : string) (v : V) :
  k ∉ d.*1 → dict_set d k v = d ++ [(k, v)].
Proof.
  induction d as [|[k' v'] d IH]; intros Hk; [done|].
  simpl in *. apply not_elem_of_cons in Hk as [Hne Hk].
  rewrite decide_False by done. by rewrite IH.
Qed.

Lemma foldl_dict_set {V : Type} (key : string → string) (val : string → V)
    (l : list string) (d : dict V) :
  NoDup (d.*1 ++ (key <$> l)) →
  foldl (λ d a, dict_set d (key a) (val a)) d l
  = d ++ ((λ a, (key a, val a)) <$> l).
Proof.
  revert d. induction l as [|a l IH]; intros d Hnd.
  - simpl. by rewrite app_nil_r.
  - simpl in *. apply NoDup_app in Hnd as Hnd'.
    destruct Hnd' as (_ & Hdisj & _).
    rewrite dict_set_fresh by (intros Hin; eapply Hdisj; [done|by left]).
    rewrite IH.
    + by rewrite <- (assoc_L (++)).
    + rewrite fmap_app. simpl. by rewrite <- (assoc_L (++)).
Qed.

Lemma ECG_CHANNELS_keys (c : string) :
  is_Some (ECG_CHANNELS !! c) ↔ c = "X1:LEOG" ∨ c = "X2:REOG".
Proof.
  unfold ECG_CHANNELS. split.
  - intros [n Hn]. apply lookup_insert_Some in Hn as [[-> _]|[_ Hn]];
      [by left|].
    apply lookup_insert_Some in Hn as [[-> _]|[_ Hn]]; [by right|].
    by rewrite lookup_empty in Hn.
  - intros [->| ->]; vm_compute; eauto.
Qed.

Lemma nice_label_inj (unit : string) (a b : string) :
  is_Some (ECG_CHANNELS !! a) → is_Some (ECG_CHANNELS !! b) →
  nice a +:+ unit = nice b +:+ unit → a = b.
Proof.
  rewrite !ECG_CHANNELS_keys.
  intros [->| ->] [->| ->]; try done; vm_compute; intros; discriminate.
Qed.


Lemma ecg_raw_cols_eq df :
  ecg_raw_cols df = filter (λ c, is_Some (ECG_CHANNELS !! c)) (data_cols df).
Proof. done. Qed.
Lemma eeg_cols_eq df :
  eeg_cols df = filter (λ c, c ∈ EEG_CHANNELS) (data_cols df).
Proof. done. Qed.
Lemma cm_cols_eq df :
  cm_cols df = filter (λ c, c = "CM") (data_cols df).
Proof. done. Qed.

Lemma ecg_raw_cols_key df raw :
  raw ∈ ecg_raw_cols df → is_Some (ECG_CHANNELS !! raw).
Proof. rewrite ecg_raw_cols_eq, list_elem_of_filter. tauto. Qed.

Lemma ecg_raw_cols_NoDup df : NoDup (columns df) → NoDup (ecg_raw_cols df).
Proof.
  intros Hnd. rewrite ecg_raw_cols_eq. unfold data_cols.
  by do 2 apply NoDup_filter.
Qed.

Lemma ecg_labels_NoDup df unit :
  NoDup (columns df) →
  NoDup ((λ raw, nice raw +:+ unit) <$> ecg_raw_cols df).
Proof.
  intros Hnd. apply NoDup_fmap_2_strong; [|by apply ecg_raw_cols_NoDup].
  intros a b Ha Hb. apply nice_label_inj; by eapply ecg_raw_cols_key.
Qed.

Lemma derive_ecg_Ok df raw uv mv :
  raw ∈ ecg_raw_cols df →
  Forall (λ c, is_text c = false) (series df raw) →
  derive_ecg (final df) raw (uv, mv)
  = Ok (dict_set uv (nice raw +:+ " (μV)") (scaled <$> series df raw),
        dict_set mv (nice raw +:+ " (mV)") (series df raw)).
Proof.
  intros Hraw Hnum. unfold derive_ecg.
  destruct (ecg_raw_cols_key _ _ Hraw) as [n Hn].
  unfold nice. rewrite Hn. simpl.
  rewrite getitem_final by (apply roles_columns; tauto). simpl.
  by rewrite series_map_mul_Ok.
Qed.

Lemma derive_ecg_Raise df raw st :
  raw ∈ ecg_raw_cols df →
  ¬ Forall (λ c, is_text c = false) (series df raw) →
  derive_ecg (final df) raw st = Raise TypeError.
Proof.
  intros Hraw Hnum. unfold derive_ecg. destruct st as [uv mv].
  destruct (ecg_raw_cols_key _ _ Hraw) as [n Hn].
  rewrite Hn. simpl.
  rewrite getitem_final by (apply roles_columns; tauto). simpl.
  by rewrite series_map_mul_Raise.
Qed.

Lemma foldl_pair {A U M : Type} (f : U → A → U) (g : M → A → M)
    (l : list A) (u : U) (m : M) :
  foldl (λ st a, (f st.1 a, g st.2 a)) (u, m) l = (foldl f u l, foldl g m l).
Proof. revert u m. induction l as [|a l IH]; intros u m; [done|]. apply IH. Qed.

Lemma derive_loop_Ok df :
  NoDup (columns df) → ecg_numeric df →
  for_each (ecg_raw_cols df) (derive_ecg (final df)) ([], [])
  = Ok (ecg_items df " (μV)" (λ raw, scaled <$> series df raw),
        ecg_items df " (mV)" (series df)).
Proof.
  intros Hnd Hnum.
  rewrite (for_each_Ok_foldl
    (λ st raw,
       (dict_set st.1 (nice raw +:+ " (μV)") (scaled <$> series df raw),
        dict_set st.2 (nice raw +:+ " (mV)") (series df raw)))).
  - f_equal.
    rewrite (foldl_pair
      (λ d raw, dict_set d (nice raw +:+ " (μV)") (scaled <$> series df raw))
      (λ d raw, dict_set d (nice raw +:+ " (mV)") (series df raw))).
    unfold ecg_items.
    rewrite (foldl_dict_set (λ raw, nice raw +:+ " (μV)")
               (λ raw, scaled <$> series df raw))
      by by apply ecg_labels_NoDup.
    by rewrite (foldl_dict_set (λ raw, nice raw +:+ " (mV)") (series df))
      by by apply ecg_labels_NoDup.
  - intros raw [uv mv] Hraw. apply derive_ecg_Ok; [done|].
    unfold ecg_numeric in Hnum. rewrite Forall_forall in Hnum. by apply Hnum.
Qed.

Lemma derive_loop_Raise df :
  ¬ ecg_numeric df →
  for_each (ecg_raw_cols df) (derive_ecg (final df)) ([], [])
  = Raise TypeError.
Proof.
  intros Hnum. apply for_each_Raise.
  - intros raw [uv mv] Hraw.
    destruct (decide (Forall (λ c, is_text c = false) (series df raw))).
    + left. eexists. by apply derive_ecg_Ok.
    + right. by apply derive_ecg_Raise.
  - unfold ecg_numeric in Hnum. apply not_Forall_Exists in Hnum; [|apply _].
    apply Exists_exists in Hnum as (raw & Hraw & Hbad).
    apply Exists_exists. exists raw. split; [done|].
    intros st. by apply derive_ecg_Raise.
Qed.


Lemma foldl_push {A : Type} (g : group) (mk : A → go.Scatter) (l : list A)
    (fg : Figure) (ti : TraceIndices) :
  foldl (λ st a, push g st (mk a)) (fg, ti) l
  = (with_data fg (data fg ++ (mk <$> l)),
     extend ti g (seq (length (data fg)) (length l))).
Proof.
  revert fg ti. induction l as [|a l IH]; intros fg ti.
  - simpl. rewrite app_nil_r. by destruct fg.
  - simpl. unfold push at 2. simpl. rewrite IH. simpl.
    rewrite length_app, Nat.add_1_r, <- (assoc_L (++)). done.
Qed.

Lemma time_in_final df : "Time" ∈ columns (final df).
Proof. by left. Qed.

Lemma add_eeg_Ok df ch st :
  ch ∈ eeg_cols df →
  add_eeg (final df) "Time" ch st = Ok (push EEG st (eeg_trace df ch)).
Proof.
  intros Hch. destruct st as [fg ti]. unfold add_eeg.
  rewrite !getitem_final by (try apply time_in_final; apply roles_columns; tauto).
  simpl. unfold push. simpl. rewrite length_app. simpl. rewrite Nat.add_sub. reflexivity.
Qed.

Lemma add_cm_Ok df ch st :
  ch ∈ cm_cols df → has_secondary_y st.1 = true →
  add_cm (final df) "Time" ch st = Ok (push CM st (cm_trace df ch)).
Proof.
  intros Hch Hsec. destruct st as [fg ti]. unfold add_cm. simpl in Hsec.
  rewrite !getitem_final by (try apply time_in_final; apply roles_columns; tauto).
  simpl. unfold add_trace, push, with_data. simpl. rewrite !Hsec. simpl.
  rewrite length_app. simpl. rewrite Nat.add_sub. reflexivity.
Qed.

Lemma add_ecg_mv_Ok df item st :
  has_secondary_y st.1 = true →
  add_ecg_mv (final df) "Time" item st
  = Ok (push ECG_mV st
          (on_axis (Scatter (series df "Time") item.2 item.1 None None) true)).
Proof.
  intros Hsec. destruct st as [fg ti]. unfold add_ecg_mv. simpl in Hsec.
  rewrite !getitem_final by apply time_in_final.
  simpl. unfold add_trace, push, with_data. simpl. rewrite !Hsec. simpl.
  rewrite length_app. simpl. rewrite Nat.add_sub. reflexivity.
Qed.

Lemma add_ecg_uv_Ok df item st :
  has_secondary_y st.1 = true →
  add_ecg_uv (final df) "Time" item st
  = Ok (push ECG_uV st
          (on_axis (Scatter (series df "Time") item.2 item.1 (Some false) None)
             true)).
Proof.
  intros Hsec. destruct st as [fg ti]. unfold add_ecg_uv. simpl in Hsec.
  rewrite !getitem_final by apply time_in_final.
  simpl. unfold add_trace, push, with_data. simpl. rewrite !Hsec. simpl.
  rewrite length_app. simpl. rewrite Nat.add_sub. reflexivity.
Qed.

Lemma trace_loop {A : Type} (body : A → Figure * TraceIndices →
                              result (Figure * TraceIndices))
    (g : group) (mk : A → go.Scatter) (l : list A)
    (fg : Figure) (ti : TraceIndices) :
  (∀ a st, a ∈ l → has_secondary_y st.1 = has_secondary_y fg →
           body a st = Ok (push g st (mk a))) →
  for_each l body (fg, ti)
  = Ok (with_data fg (data fg ++ (mk <$> l)),
        extend ti g (seq (length (data fg)) (length l))).
Proof.
  intros Hbody. rewrite <- foldl_push.
  apply (for_each_Ok_foldl_inv
           (λ st, has_secondary_y st.1 = has_secondary_y fg)); [done|].
  intros a st Ha Hst. split; [by apply Hbody|done].
Qed.

Lemma vec_replicate ne nc nm nu b :
  replicate (ne + nc + nm + nu) b = vec ne nc nm nu b b b b.
Proof. unfold vec. by rewrite !replicate_add, <- !(assoc_L (++)). Qed.

Lemma set_all_EEG v ne nc nm nu be bc bm bu :
  set_all (seq 0 ne) v (vec ne nc nm nu be bc bm bu)
  = Ok (vec ne nc nm nu v bc bm bu).
Proof.
  pose proof (set_all_seq v [] (replicate ne be)
    (replicate nc bc ++ replicate nm bm ++ replicate nu bu)) as Hs.
  by rewrite length_replicate in Hs.
Qed.

Lemma set_all_CM v ne nc nm nu be bc bm bu :
  set_all (seq ne nc) v (vec ne nc nm nu be bc bm bu)
  = Ok (vec ne nc nm nu be v bm bu).
Proof.
  pose proof (set_all_seq v (replicate ne be) (replicate nc bc)
    (replicate nm bm ++ replicate nu bu)) as Hs.
  by rewrite !length_replicate in Hs.
Qed.

Lemma set_all_ECG_mV v ne nc nm nu be bc bm bu :
  set_all (seq (ne + nc) nm) v (vec ne nc nm nu be bc bm bu)
  = Ok (vec ne nc nm nu be bc v bu).
Proof.
  pose proof (set_all_seq v (replicate ne be ++ replicate nc bc)
    (replicate nm bm) (replicate nu bu)) as Hs.
  rewrite length_app, !length_replicate, <- !(assoc_L (++)) in Hs. done.
Qed.

Lemma set_all_ECG_uV v ne nc nm nu be bc bm bu :
  set_all (seq (ne + nc + nm) nu) v (vec ne nc nm nu be bc bm bu)
  = Ok (vec ne nc nm nu be bc bm v).
Proof.
  pose proof (set_all_seq v
    (replicate ne be ++ replicate nc bc ++ replicate nm bm)
    (replicate nu bu) []) as Hs.
  rewrite !length_app, !length_replicate, !app_nil_r, Nat.add_assoc,
    <- !(assoc_L (++)) in Hs. done.
Qed.

Lemma set_all_EEG' v ne nc nm nu be bc bm bu :
  for_each (seq 0 ne) (λ i vis, list_setitem vis i v)
    (vec ne nc nm nu be bc bm bu)
  = Ok (vec ne nc nm nu v bc bm bu).
Proof. apply set_all_EEG. Qed.
Lemma set_all_CM' v ne nc nm nu be bc bm bu :
  for_each (seq ne nc) (λ i vis, list_setitem vis i v)
    (vec ne nc nm nu be bc bm bu)
  = Ok (vec ne nc nm nu be v bm bu).
Proof. apply set_all_CM. Qed.
Lemma set_all_ECG_mV' v ne nc nm nu be bc bm bu :
  for_each (seq (ne + nc) nm) (λ i vis, list_setitem vis i v)
    (vec ne nc nm nu be bc bm bu)
  = Ok (vec ne nc nm nu be bc v bu).
Proof. apply set_all_ECG_mV. Qed.
Lemma set_all_ECG_uV' v ne nc nm nu be bc bm bu :
  for_each (seq (ne + nc + nm) nu) (λ i vis, list_setitem vis i v)
    (vec ne nc nm nu be bc bm bu)
  = Ok (vec ne nc nm nu be bc bm v).
Proof. apply set_all_ECG_uV. Qed.

Lemma extend_eq ti g l :
  extend ti g l =
    match g with
    | EEG => {| idx_EEG := idx_EEG ti ++ l; idx_ECG_uV := idx_ECG_uV ti;
                idx_ECG_mV := idx_ECG_mV ti; idx_CM := idx_CM ti |}
    | ECG_uV => {| idx_EEG := idx_EEG ti; idx_ECG_uV := idx_ECG_uV ti ++ l;
                   idx_ECG_mV := idx_ECG_mV ti; idx_CM := idx_CM ti |}
    | ECG_mV => {| idx_EEG := idx_EEG ti; idx_ECG_uV := idx_ECG_uV ti;
                   idx_ECG_mV := idx_ECG_mV ti ++ l; idx_CM := idx_CM ti |}
    | CM => {| idx_EEG := idx_EEG ti; idx_ECG_uV := idx_ECG_uV ti;
               idx_ECG_mV := idx_ECG_mV ti; idx_CM := idx_CM ti ++ l |}
    end.
Proof.
  revert ti. unfold extend. induction l as [|i l IH]; intros ti.
  - simpl. rewrite !app_nil_r. by destruct ti, g.
  - simpl. rewrite IH. destruct g; simpl; by rewrite <- (assoc_L (++)).
Qed.

Lemma main_no_time df :
  "Time" ∉ columns df →
  main df = SystemExit "Expected 'Time' column not found.".
Proof. intros Ht. unfold main. by rewrite decide_True. Qed.


Lemma use_secondary_cm df ch : ch ∈ cm_cols df → use_secondary df = true.
Proof.
  intros Hch. apply bool_decide_eq_true.
  destruct (cm_cols df); [by apply elem_of_nil in Hch|simpl; lia].
Qed.

Lemma use_secondary_ecg df raw :
  raw ∈ ecg_raw_cols df → use_secondary df = true.
Proof.
  intros Hch. apply bool_decide_eq_true.
  destruct (ecg_raw_cols df); [by apply elem_of_nil in Hch|simpl; lia].
Qed.

Lemma length_ecg_items df unit val :
  length (ecg_items df unit val) = length (ecg_raw_cols df).
Proof. unfold ecg_items. by rewrite length_fmap. Qed.

Lemma initial_vis df :
  (λ tr, match go.visible tr with Some b => b | None => true end)
    <$> ((eeg_trace df <$> eeg_cols df) ++ (cm_trace df <$> cm_cols df)
         ++ (ecg_mv_trace df <$> ecg_raw_cols df)
         ++ (ecg_uv_trace df <$> ecg_raw_cols df))
  = block_vector df true true true false.
Proof.
  rewrite !fmap_app, <- !list_fmap_compose. unfold block_vector, vec.
  repeat f_equal; by apply const_fmap.
Qed.

Lemma main_eq df :
  NoDup (columns df) →
  main df =
    if decide ("Time" ∉ columns df)
    then SystemExit "Expected 'Time' column not found."
    else if decide (no_roles df)
    then SystemExit "No EEG/ECG/CM columns found after filtering. Check headers."
    else if decide (ecg_numeric df) then Ok (expected_scene df)
    else Raise TypeError.
Proof.
  intros Hnd. destruct (decide ("Time" ∉ columns df)) as [Ht|Ht].
  { by apply main_no_time. }
  apply dec_stable in Ht.
  unfold main. rewrite decide_False by (intros Hn; by apply Hn).
  unfold getitem at 1. rewrite decide_True by done.
  cbn [mbind result_bind]. fold (cleaned df).
  rewrite filter_columns_cleaned by done. cbn [mbind result_bind].
  rewrite final_data_cols. unfold split_roles.
  rewrite <- eeg_cols_eq, <- ecg_raw_cols_eq, <- cm_cols_eq.
  destruct (decide (no_roles df)) as [Hr|Hr].
  { destruct Hr as (-> & -> & ->). done. }
  replace (bool_decide (eeg_cols df = []) && bool_decide (ecg_raw_cols df = [])
           && bool_decide (cm_cols df = [])) with false.
  2:{ symmetry. apply not_true_is_false. intros Hb. apply Hr.
      apply andb_prop in Hb as [Hb Hc]. apply andb_prop in Hb as [Ha Hb].
      apply bool_decide_eq_true in Ha, Hb, Hc. done. }
  destruct (decide (ecg_numeric df)) as [Hnum|Hnum].
  2:{ by rewrite derive_loop_Raise. }
  rewrite derive_loop_Ok by done. cbn [mbind result_bind].
  rewrite length_ecg_items. fold (use_secondary df).
  rewrite (trace_loop _ EEG (eeg_trace df))
    by (intros a st Ha _; by apply add_eeg_Ok).
  rewrite extend_eq. norm.
  rewrite (trace_loop _ CM (cm_trace df)).
  2:{ intros a st Ha Hst. apply add_cm_Ok; [done|]. rewrite Hst. simpl.
      by eapply use_secondary_cm. }
  rewrite extend_eq. norm.
  rewrite (trace_loop _ ECG_mV
    (λ item, on_axis (Scatter (series df "Time") item.2 item.1 None None) true)).
  2:{ intros a st Ha Hst. apply add_ecg_mv_Ok. rewrite Hst. simpl.
      apply list_elem_of_fmap in Ha as (raw & _ & Hraw).
      by eapply use_secondary_ecg. }
  rewrite extend_eq. norm.
  rewrite (trace_loop _ ECG_uV
    (λ item, on_axis (Scatter (series df "Time") item.2 item.1 (Some false) None)
               true)).
  2:{ intros a st Ha Hst. apply add_ecg_uv_Ok. rewrite Hst. simpl.
      apply list_elem_of_fmap in Ha as (raw & _ & Hraw).
      by eapply use_secondary_ecg. }
  rewrite extend_eq. norm.
  destruct (use_secondary df) eqn:Hsec; norm.
  all: change ((λ item : string * list cell,
             on_axis (Scatter (series df "Time") item.2 item.1 None None) true)
          ∘ (λ raw, (nice raw +:+ " (mV)", series df raw)))
    with (ecg_mv_trace df).
  all: change ((λ item : string * list cell,
             on_axis (Scatter (series df "Time") item.2 item.1 (Some false) None)
               true)
          ∘ (λ raw, (nice raw +:+ " (μV)", scaled <$> series df raw)))
    with (ecg_uv_trace df).
  all: rewrite <- !(assoc_L (++)).
  all: change (length (@nil go.Scatter)) with 0.
  all: unfold unit_mode_visibility.
  all: cbn [for_each trace_indices_get idx_EEG idx_ECG_uV idx_ECG_mV idx_CM data].
  all: rewrite initial_vis, !vec_replicate.
  all: unfold block_vector.
  all: rewrite (decide_True (P := "mV" = "mV")) by done.
  all: rewrite (decide_False (P := "uV" = "mV")) by done.
  all: destruct (decide (CM = ECG_uV)) as [?|_]; [done|].
  all: destruct (decide (ECG_mV = ECG_uV)) as [?|_]; [done|].
  all: destruct (decide (ECG_uV = ECG_uV)) as [_|?]; [|done].
  all: unfold set_all.
  all: repeat first
    [ rewrite for_each_skip | rewrite set_all_EEG' | rewrite set_all_CM' | rewrite set_all_ECG_mV'
    | rewrite set_all_ECG_uV' | progress cbn [mbind result_bind] ].
  all: unfold expected_scene, all_traces, traces_of, block_vector.
  all: rewrite Hsec. all: reflexivity.
Qed.

Lemma main_Ok_inv df s :
  NoDup (columns df) → main df = Ok s →
  "Time" ∈ columns df ∧ ¬ no_roles df ∧ ecg_numeric df ∧ s = expected_scene df.
Proof.
  intros Hnd Hmain. rewrite main_eq in Hmain by done.
  destruct (decide ("Time" ∉ columns df)) as [?|Ht]; [done|].
  destruct (decide (no_roles df)); [done|].
  destruct (decide (ecg_numeric df)); [|done].
  apply dec_stable in Ht. by simplify_eq.
Qed.

Lemma main_Ok df :
  NoDup (columns df) → "Time" ∈ columns df → ¬ no_roles df → ecg_numeric df →
  main df = Ok (expected_scene df).
Proof.
  intros Hnd Ht Hr Hnum. rewrite main_eq by done.
  rewrite decide_False by (intros Hn; by apply Hn).
  by rewrite decide_False, decide_True.
Qed.

Lemma main_TypeError df :
  NoDup (columns df) → "Time" ∈ columns df → ¬ no_roles df → ¬ ecg_numeric df →
  main df = Raise TypeError.
Proof.
  intros Hnd Ht Hr Hnum. rewrite main_eq by done.
  rewrite decide_False by (intros Hn; by apply Hn).
  by rewrite !decide_False.
Qed.

Lemma elem_of_traces_of df g tr :
  tr ∈ traces_of df g →
  match g with
  | EEG => ∃ ch, ch ∈ eeg_cols df ∧ tr = eeg_trace df ch
  | CM => ∃ ch, ch ∈ cm_cols df ∧ tr = cm_trace df ch
  | ECG_mV => ∃ raw, raw ∈ ecg_raw_cols df ∧ tr = ecg_mv_trace df raw
  | ECG_uV => ∃ raw, raw ∈ ecg_raw_cols df ∧ tr = ecg_uv_trace df raw
  end.
Proof.
  destruct g; simpl; intros (c & -> & Hc)%list_elem_of_fmap; eauto.
Qed.

(** C7: in the scene that is written, the traces are the EEG, Reference,
    ECG-mV and ECG-μV traces; every EEG, Reference and ECG-mV trace leaves
    [visible] unset, which draws it, and every ECG-μV trace sets it to
    [False], so the chart opens in mV. *)
Theorem initial_visibility df s :
  NoDup (columns df) → main df = Ok s →
  data (fig s) = traces_of df EEG ++ traces_of df CM
                 ++ traces_of df ECG_mV ++ traces_of df ECG_uV
  ∧ ∀ g tr, tr ∈ traces_of df g →
      go.visible tr = (if decide (g = ECG_uV) then Some false else None)
      ∧ shown tr = bool_decide (g ≠ ECG_uV).
Proof.
  intros Hnd Hmain.
  destruct (main_Ok_inv df s Hnd Hmain) as (_ & _ & _ & ->).
  split; [done|].
  intros g tr Htr. apply elem_of_traces_of in Htr.
  destruct g; destruct Htr as (c & _ & ->); done.
Qed.

(** C8: the right axis exists exactly when there is at least one ECG-derived
    or Reference series; every EEG trace is on the left axis and every
    Reference and ECG trace on the right one. *)
Theorem secondary_axis df s :
  NoDup (columns df) → main df = Ok s →
  data (fig s) = traces_of df EEG ++ traces_of df CM
                 ++ traces_of df ECG_mV ++ traces_of df ECG_uV
  ∧ (has_secondary_y (fig s) = true ↔
     0 < length (traces_of df ECG_mV) + length (traces_of df ECG_uV)
         + length (traces_of df CM))
  ∧ ∀ g tr, tr ∈ traces_of df g → go.secondary_y tr = bool_decide (g ≠ EEG).
Proof.
  intros Hnd Hmain.
  destruct (main_Ok_inv df s Hnd Hmain) as (_ & _ & _ & ->).
  split; [done|]. split.
  - simpl. unfold use_secondary. rewrite bool_decide_eq_true, !length_fmap. lia.
  - intros g tr Htr. apply elem_of_traces_of in Htr.
    destruct g; destruct Htr as (c & _ & ->); done.
Qed.

(** C9: an EEG trace is named by its column, a Reference trace by the fixed
    string ["CM (μV, reference)"], an ECG trace by the remapped name of its
    column followed by its unit; Reference traces set the line's dash
    pattern (to ["dot"]) and no other trace sets one. *)
Theorem trace_names_and_lines df s :
  NoDup (columns df) → main df = Ok s →
  data (fig s) = traces_of df EEG ++ traces_of df CM
                 ++ traces_of df ECG_mV ++ traces_of df ECG_uV
  ∧ go.name <$> traces_of df EEG = eeg_cols df
  ∧ go.name <$> traces_of df CM
    = replicate (length (cm_cols df)) "CM (μV, reference)"
  ∧ go.name <$> traces_of df ECG_mV
    = (λ raw, nice raw +:+ " (mV)") <$> ecg_raw_cols df
  ∧ go.name <$> traces_of df ECG_uV
    = (λ raw, nice raw +:+ " (μV)") <$> ecg_raw_cols df
  ∧ (∀ raw, raw ∈ ecg_raw_cols df → ECG_CHANNELS !! raw = Some (nice raw))
  ∧ ∀ g tr, tr ∈ traces_of df g →
      go.line_dash tr = (if decide (g = CM) then Some "dot" else None).
Proof.
  intros Hnd Hmain.
  destruct (main_Ok_inv df s Hnd Hmain) as (_ & _ & _ & ->).
  split; [done|]. simpl. rewrite <- !list_fmap_compose.
  split; [by rewrite <- (list_fmap_id (eeg_cols df)) at 2|].
  split; [by apply const_fmap|].
  do 2 (split; [done|]). split.
  - intros raw [n Hn]%ecg_raw_cols_key. unfold nice. by rewrite Hn.
  - intros g tr Htr. apply elem_of_traces_of in Htr.
    destruct g; destruct Htr as (c & _ & ->); done.
Qed.

Lemma vec_lookup ne nc nm nu be bc bm bu i :
  vec ne nc nm nu be bc bm bu !! i =
    if decide (i < ne) then Some be
    else if decide (i < ne + nc) then Some bc
    else if decide (i < ne + nc + nm) then Some bm
    else if decide (i < ne + nc + nm + nu) then Some bu
    else None.
Proof.
  unfold vec. repeat case_decide.
  - rewrite lookup_app_l by (rewrite length_replicate; lia).
    apply lookup_replicate_2. lia.
  - rewrite lookup_app_r, lookup_app_l by (rewrite ?length_replicate; lia).
    apply lookup_replicate_2. rewrite length_replicate. lia.
  - rewrite !lookup_app_r, lookup_app_l by (rewrite ?length_replicate; lia).
    apply lookup_replicate_2. rewrite !length_replicate. lia.
  - rewrite !lookup_app_r by (rewrite ?length_replicate; lia).
    apply lookup_replicate_2. rewrite !length_replicate. lia.
  - apply lookup_ge_None. rewrite !length_app, !length_replicate. lia.
Qed.

Lemma vec_length ne nc nm nu be bc bm bu :
  length (vec ne nc nm nu be bc bm bu) = ne + nc + nm + nu.
Proof. unfold vec. rewrite !length_app, !length_replicate. lia. Qed.

Lemma vec_count ne nc nm nu :
  length (filter (λ b, b = true) (vec ne nc nm nu true false false false)) = ne.
Proof.
  unfold vec. rewrite !filter_app, !length_app.
  assert (Ht : ∀ n, length (filter (λ b, b = true) (replicate n true)) = n).
  { induction n as [|n IH]; [done|]. cbn [replicate].
    rewrite filter_cons_True by done. simpl. by rewrite IH. }
  assert (Hf : ∀ n, length (filter (λ b, b = true) (replicate n false)) = 0).
  { induction n as [|n IH]; [done|]. cbn [replicate].
    by rewrite filter_cons_False. }
  rewrite Ht, !Hf. lia.
Qed.

Lemma all_traces_lookup df i :
  all_traces df !! i =
    if decide (i < length (eeg_cols df))
    then eeg_trace df <$> eeg_cols df !! i
    else if decide (i < length (eeg_cols df) + length (cm_cols df))
    then cm_trace df <$> cm_cols df !! (i - length (eeg_cols df))
    else if decide (i < length (eeg_cols df) + length (cm_cols df)
                        + length (ecg_raw_cols df))
    then ecg_mv_trace df
           <$> ecg_raw_cols df !! (i - length (eeg_cols df) - length (cm_cols df))
    else ecg_uv_trace df
           <$> ecg_raw_cols df !! (i - length (eeg_cols df) - length (cm_cols df)
                                     - length (ecg_raw_cols df)).
Proof.
  unfold all_traces, traces_of. repeat case_decide.
  - rewrite lookup_app_l by (rewrite length_fmap; lia).
    apply list_lookup_fmap.
  - rewrite lookup_app_r, lookup_app_l by (rewrite ?length_fmap; lia).
    rewrite length_fmap. apply list_lookup_fmap.
  - rewrite !lookup_app_r, lookup_app_l by (rewrite ?length_fmap; lia).
    rewrite !length_fmap. apply list_lookup_fmap.
  - rewrite !lookup_app_r by (rewrite ?length_fmap; lia).
    rewrite !length_fmap. apply list_lookup_fmap.
Qed.

Lemma all_traces_length df :
  length (all_traces df)
  = length (eeg_cols df) + length (cm_cols df) + 2 * length (ecg_raw_cols df).
Proof.
  unfold all_traces, traces_of. rewrite !length_app, !length_fmap. lia.
Qed.

(** C10: the traces stand in four blocks, EEG, Reference, ECG-mV, ECG-μV;
    the i-th trace of a block is built from the i-th column of that role, and
    the columns of a role keep the order they have in the table; the vectors
    of the five buttons are constant on each of the four blocks. *)
Theorem trace_order df s :
  NoDup (columns df) → main df = Ok s →
  data (fig s) = traces_of df EEG ++ traces_of df CM
                 ++ traces_of df ECG_mV ++ traces_of df ECG_uV
  ∧ (∀ i ch, eeg_cols df !! i = Some ch →
       data (fig s) !! i = Some (eeg_trace df ch))
  ∧ (∀ i ch, cm_cols df !! i = Some ch →
       data (fig s) !! (length (eeg_cols df) + i) = Some (cm_trace df ch))
  ∧ (∀ i raw, ecg_raw_cols df !! i = Some raw →
       data (fig s) !! (length (eeg_cols df) + length (cm_cols df) + i)
       = Some (ecg_mv_trace df raw)
       ∧ data (fig s) !! (length (eeg_cols df) + length (cm_cols df)
                          + length (ecg_raw_cols df) + i)
         = Some (ecg_uv_trace df raw))
  ∧ eeg_cols df `sublist_of` columns df
  ∧ cm_cols df `sublist_of` columns df
  ∧ ecg_raw_cols df `sublist_of` columns df
  ∧ map (map args_visible) (updatemenus s)
    = [ [ block_vector df true true true true;
          block_vector df true false false false;
          block_vector df false true true false ];
        [ block_vector df true true true false;
          block_vector df true true false true ] ].
Proof.
  intros Hnd Hmain.
  destruct (main_Ok_inv df s Hnd Hmain) as (_ & _ & _ & ->).
  split; [done|]. cbn [fig data expected_scene].
  split; [|split; [|split]].
  - intros i ch Hi. rewrite all_traces_lookup.
    apply lookup_lt_Some in Hi as Hlt. rewrite decide_True by done.
    by rewrite Hi.
  - intros i ch Hi. rewrite all_traces_lookup.
    apply lookup_lt_Some in Hi as Hlt.
    rewrite decide_False, decide_True by lia.
    replace (length (eeg_cols df) + i - length (eeg_cols df)) with i by lia.
    by rewrite Hi.
  - intros i raw Hi. rewrite !all_traces_lookup.
    apply lookup_lt_Some in Hi as Hlt. split.
    + rewrite !decide_False, decide_True by lia.
      replace (length (eeg_cols df) + length (cm_cols df) + i
               - length (eeg_cols df) - length (cm_cols df)) with i by lia.
      by rewrite Hi.
    + rewrite !decide_False by lia.
      replace (length (eeg_cols df) + length (cm_cols df)
               + length (ecg_raw_cols df) + i - length (eeg_cols df)
               - length (cm_cols df) - length (ecg_raw_cols df)) with i by lia.
      by rewrite Hi.
  - assert (Hd : data_cols df `sublist_of` columns df) by apply sublist_filter.
    repeat split; try done.
    all: etrans; [|exact Hd]; apply sublist_filter.
Qed.

Lemma roles_in_data_cols df c :
  c ∈ eeg_cols df ∨ c ∈ ecg_raw_cols df ∨ c ∈ cm_cols df → c ∈ data_cols df.
Proof.
  unfold eeg_cols, ecg_raw_cols, cm_cols, split_roles. simpl.
  rewrite !list_elem_of_filter. tauto.
Qed.

(** C6: the three preset vectors have one entry per trace, that is
    |EEG| + |Reference| + 2 |ECG-raw| entries; "All" is true everywhere;
    "EEG only" is true exactly on the EEG block, so on |EEG| entries;
    "ECG+CM only" is true exactly on the Reference and ECG-mV blocks and
    false on every ECG-μV entry. *)
Theorem preset_vectors df s :
  NoDup (columns df) → main df = Ok s →
  let ne := length (eeg_cols df) in
  let nc := length (cm_cols df) in
  let nm := length (ecg_raw_cols df) in
  data (fig s) = traces_of df EEG ++ traces_of df CM
                 ++ traces_of df ECG_mV ++ traces_of df ECG_uV
  ∧ length (traces_of df EEG) = ne ∧ length (traces_of df CM) = nc
  ∧ length (traces_of df ECG_mV) = nm ∧ length (traces_of df ECG_uV) = nm
  ∧ length (data (fig s)) = ne + nc + 2 * nm
  ∧ ∃ v_all v_eeg v_other,
      updatemenus s !! 0
      = Some [ {| label := "All"; args_visible := v_all;
                  args_yaxis2_title := None |};
               {| label := "EEG only"; args_visible := v_eeg;
                  args_yaxis2_title := None |};
               {| label := "ECG+CM only"; args_visible := v_other;
                  args_yaxis2_title := None |} ]
      ∧ length v_all = length (data (fig s))
      ∧ length v_eeg = length (data (fig s))
      ∧ length v_other = length (data (fig s))
      ∧ v_all = replicate (length (data (fig s))) true
      ∧ (∀ i, v_eeg !! i = Some true ↔ i < ne)
      ∧ length (filter (λ b, b = true) v_eeg) = ne
      ∧ (∀ i, v_other !! i = Some true ↔ ne ≤ i < ne + nc + nm)
      ∧ (∀ i, ne + nc + nm ≤ i < ne + nc + nm + nm → v_other !! i = Some false).
Proof.
  intros Hnd Hmain ne nc nm.
  destruct (main_Ok_inv df s Hnd Hmain) as (_ & _ & _ & ->).
  split; [done|]. cbn [fig data expected_scene updatemenus].
  do 4 (split; [by (simpl; rewrite length_fmap)|]).
  split; [apply all_traces_length|].
  eexists _, _, _. split; [reflexivity|].
  rewrite all_traces_length. unfold block_vector. fold ne nc nm.
  rewrite !vec_length.
  do 3 (split; [lia|]).
  split; [rewrite <- vec_replicate; f_equal; lia|].
  split; [|split; [apply vec_count|split]].
  - intros i. rewrite vec_lookup. repeat case_decide; split; (done || lia).
  - intros i. rewrite vec_lookup. repeat case_decide; split; (done || lia).
  - intros i Hi. rewrite vec_lookup. repeat case_decide; (done || lia).
Qed.

(** C1: every ECG-raw column has exactly two traces, one in the ECG-mV block
    and one in the ECG-μV block, besides which there are only the EEG and
    Reference traces; both are named by the remapped name of the column and
    their unit and share the time axis; the mV trace holds the values of the
    column and the μV trace holds them multiplied by 1000, row by row. *)
Theorem ecg_two_traces df s :
  NoDup (columns df) → main df = Ok s →
  let ne := length (eeg_cols df) in
  let nc := length (cm_cols df) in
  let nm := length (ecg_raw_cols df) in
  length (data (fig s)) = ne + nc + 2 * nm
  ∧ take (ne + nc) (data (fig s)) = traces_of df EEG ++ traces_of df CM
  ∧ ∀ i raw, ecg_raw_cols df !! i = Some raw →
      ∃ mv uv,
        data (fig s) !! (ne + nc + i) = Some mv
        ∧ data (fig s) !! (ne + nc + nm + i) = Some uv
        ∧ ECG_CHANNELS !! raw = Some (nice raw)
        ∧ go.name mv = nice raw +:+ " (mV)"
        ∧ go.name uv = nice raw +:+ " (μV)"
        ∧ go.x uv = go.x mv
        ∧ getitem (cleaned df) raw = Ok (go.y mv)
        ∧ series_map cell_mul_1000 (go.y mv) = Ok (go.y uv)
        ∧ ∀ j c, go.y mv !! j = Some c →
            ∃ c', cell_mul_1000 c = Ok c' ∧ go.y uv !! j = Some c'.
Proof.
  intros Hnd Hmain ne nc nm.
  destruct (main_Ok_inv df s Hnd Hmain) as (Ht & _ & Hnum & ->).
  cbn [fig data expected_scene].
  split; [apply all_traces_length|]. split.
  { unfold all_traces. rewrite (assoc_L (++)).
    apply take_app_length'. unfold traces_of.
    rewrite length_app, !length_fmap. done. }
  intros i raw Hi. apply lookup_lt_Some in Hi as Hlt.
  assert (Hraw : raw ∈ ecg_raw_cols df) by (by eapply list_elem_of_lookup_2).
  assert (Hok : Forall (λ c, is_text c = false) (series df raw)).
  { unfold ecg_numeric in Hnum. rewrite Forall_forall in Hnum. by apply Hnum. }
  exists (ecg_mv_trace df raw), (ecg_uv_trace df raw).
  rewrite !all_traces_lookup. fold ne nc nm.
  split.
  { rewrite !decide_False, decide_True by lia.
    replace (ne + nc + i - ne - nc) with i by lia. by rewrite Hi. }
  split.
  { rewrite !decide_False by lia.
    replace (ne + nc + nm + i - ne - nc - nm) with i by lia. by rewrite Hi. }
  split.
  { destruct (ecg_raw_cols_key _ _ Hraw) as [n Hn]. unfold nice. by rewrite Hn. }
  do 3 (split; [done|]). cbn [ecg_mv_trace ecg_uv_trace on_axis Scatter go.y].
  split.
  { unfold getitem. rewrite cleaned_columns by done.
    rewrite decide_True; [done|].
    by apply data_cols_columns, (roles_in_data_cols df raw); right; left. }
  split; [by apply series_map_mul_Ok|].
  intros j c Hj. exists (scaled c). split.
  - rewrite Forall_forall in Hok.
    assert (Hc : is_text c = false) by (by eapply Hok, list_elem_of_lookup_2).
    by destruct c.
  - by rewrite list_lookup_fmap, Hj.
Qed.

Lemma cleaned_rows df :
  rows (cleaned df) = merge_sort (row_le "Time") (kept_rows df).
Proof.
  unfold cleaned, sort_values, dropna, setitem, kept_rows. cbn [rows].
  by rewrite !zip_with_fmap_r, zip_with_diag.
Qed.

Lemma to_numeric_not_text c : is_text (to_numeric c) = false.
Proof. destruct c as [v|t|]; simpl; [done| |done]. by destruct (parse_number t). Qed.

Lemma kept_rows_numeric df r :
  r ∈ kept_rows df → ∃ t, default NaN (r !! "Time") = Num t.
Proof.
  unfold kept_rows. rewrite list_elem_of_filter.
  intros [Hna (r0 & -> & _)%list_elem_of_fmap]. unfold coerce in *.
  rewrite lookup_insert_eq in *. simpl in *.
  pose proof (to_numeric_not_text (default NaN (r0 !! "Time"))) as Hnt.
  destruct (to_numeric (default NaN (r0 !! "Time"))); [eauto|done|done].
Qed.

Lemma sorted_times (rs : list (gmap string cell)) :
  Forall (λ r, ∃ t, default NaN (r !! "Time") = Num t) rs →
  Sorted (row_le "Time") rs →
  ∃ ts, (λ r, default NaN (r !! "Time")) <$> rs = Num <$> ts
        ∧ Sorted num_le ts.
Proof.
  induction 1 as [|r rs [t Ht] Hrs IH]; intros Hs.
  - exists []. split; [done|constructor].
  - apply Sorted_inv in Hs as [Hs Hhd].
    destruct (IH Hs) as (ts & Hts & Hsorted).
    exists (t :: ts). split; [rewrite !fmap_cons; by rewrite Ht, Hts|].
    constructor; [done|].
    destruct Hhd as [|r' rs' Hle]; destruct ts as [|t' ts']; try done.
    constructor. rewrite !fmap_cons in Hts. injection Hts as Ht' _.
    unfold row_le in Hle. by rewrite Ht, Ht' in Hle.
Qed.

(** C4: the rows of every trace are the rows of the table whose time is a
    number after coercion, in ascending order of time: every trace has the
    same non-decreasing time sequence as its x values, and its y values are
    read (for an ECG-μV trace, read and scaled) from those rows in that
    order; a row whose time is not a number is in no trace. *)
Theorem rows_dropped_and_sorted df s :
  NoDup (columns df) → main df = Ok s →
  ∃ (rs : list (gmap string cell)) (ts : list num),
    rs ≡ₚ filter (λ r, notna (default NaN (r !! "Time")) = true)
            (coerce <$> rows df)
    ∧ (∀ r, r ∈ rows df →
         coerce r ∈ rs ↔ notna (to_numeric (default NaN (r !! "Time"))) = true)
    ∧ (λ r, default NaN (r !! "Time")) <$> rs = Num <$> ts
    ∧ Sorted num_le ts
    ∧ ∀ tr, tr ∈ data (fig s) →
        go.x tr = Num <$> ts
        ∧ ∃ c, go.y tr = (λ r, default NaN (r !! c)) <$> rs
               ∨ go.y tr = (λ r, scaled (default NaN (r !! c))) <$> rs.
Proof.
  intros Hnd Hmain.
  destruct (main_Ok_inv df s Hnd Hmain) as (_ & _ & _ & ->).
  assert (Hperm : rows (cleaned df) ≡ₚ kept_rows df).
  { rewrite cleaned_rows. apply merge_sort_Permutation. }
  destruct (sorted_times (rows (cleaned df))) as (ts & Hts & Hsorted).
  { apply Forall_forall. intros r Hr. apply (kept_rows_numeric df).
    by rewrite <- Hperm. }
  { rewrite cleaned_rows. apply (Sorted_merge_sort _). }
  exists (rows (cleaned df)), ts. split; [done|]. split.
  { intros r Hr. rewrite Hperm. unfold kept_rows.
    rewrite list_elem_of_filter. unfold coerce at 1.
    rewrite lookup_insert_eq. simpl. split; [tauto|].
    intros Hna. split; [done|]. by apply list_elem_of_fmap_2. }
  do 2 (split; [done|]).
  cbn [fig data expected_scene]. unfold all_traces.
  intros tr Htr. rewrite !elem_of_app in Htr.
  destruct Htr as [Htr|[Htr|[Htr|Htr]]]; apply elem_of_traces_of in Htr;
    destruct Htr as (c & _ & ->); (split; [exact Hts|]); exists c.
  - by left.
  - by left.
  - by left.
  - right. simpl. unfold series. by rewrite <- list_fmap_compose.
Qed.

Lemma ignored_false c :
  ignored "Time" c = false ↔ c ≠ "Time" ∧ dropped c = false.
Proof.
  unfold ignored, dropped. rewrite <- orb_assoc, orb_false_iff.
  by rewrite bool_decide_eq_false.
Qed.

Lemma ECG_key_not_EEG c : is_Some (ECG_CHANNELS !! c) → c ∉ EEG_CHANNELS.
Proof.
  intros [->| ->]%ECG_CHANNELS_keys; apply (bool_decide_unpack _); by vm_compute.
Qed.

Lemma CM_not_EEG : "CM" ∉ EEG_CHANNELS.
Proof. apply (bool_decide_unpack _). by vm_compute. Qed.

Lemma CM_not_ECG_key : ¬ is_Some (ECG_CHANNELS !! "CM").
Proof. intros [?|?]%ECG_CHANNELS_keys; discriminate. Qed.

Lemma classify_EEG c : classify c = Role_EEG ↔ dropped c = false ∧ c ∈ EEG_CHANNELS.
Proof.
  unfold classify. destruct (dropped c); [by split; [|intros []]|].
  repeat case_bool_decide; split; try done; by intros [].
Qed.

Lemma classify_ECG_raw c :
  classify c = Role_ECG_raw ↔ dropped c = false ∧ is_Some (ECG_CHANNELS !! c).
Proof.
  unfold classify. destruct (dropped c); [by split; [|intros []]|].
  pose proof (ECG_key_not_EEG c) as Hne.
  repeat case_bool_decide; split; try done; intros []; try done.
  by destruct Hne.
Qed.

Lemma classify_Reference c :
  classify c = Role_Reference ↔ dropped c = false ∧ c = "CM".
Proof.
  unfold classify. destruct (dropped c); [by split; [|intros []]|].
  pose proof CM_not_EEG as Hne. pose proof CM_not_ECG_key as Hnk.
  repeat case_bool_decide; split; try done; intros []; by simplify_eq.
Qed.

(** C5: the role of a column is a function of its name.  [filter_columns]
    keeps the time column and the columns that are neither in the exclusion
    set nor begin with an excluded prefix; [split_roles] then puts a kept
    column in the EEG list when its name is in the roster of 21 labels, in
    the ECG-raw list when it is one of the two keys of the remapping table,
    in the Reference list when it is ["CM"], and in none otherwise, without
    failing; the three lists are what [classify] says of the names. *)
Theorem classification_by_name df :
  "Time" ∈ columns df →
  let non_time := filter (λ c, c ≠ "Time") (columns df) in
  ∃ df',
    filter_columns df "Time" = Ok df'
    ∧ columns df' = "Time" :: filter (λ c, dropped c = false) non_time
    ∧ split_roles (filter (λ c, c ≠ "Time") (columns df'))
      = (filter (λ c, classify c = Role_EEG) non_time,
         filter (λ c, classify c = Role_ECG_raw) non_time,
         filter (λ c, classify c = Role_Reference) non_time)
    ∧ (∀ c, classify c = Role_EEG ↔ dropped c = false ∧ c ∈ EEG_CHANNELS)
    ∧ (∀ c, classify c = Role_ECG_raw ↔
            dropped c = false ∧ is_Some (ECG_CHANNELS !! c))
    ∧ (∀ c, classify c = Role_Reference ↔ dropped c = false ∧ c = "CM")
    ∧ (∀ c, dropped c = true ↔
            c ∈ IGNORE_EXACT ∨ ∃ pfx, pfx ∈ IGNORE_PREFIXES ∧ startswith c pfx = true)
    ∧ length EEG_CHANNELS = 21 ∧ NoDup EEG_CHANNELS
    ∧ size ECG_CHANNELS = 2.
Proof.
  intros Ht non_time. eexists. split.
  { unfold filter_columns, getitem_list. rewrite decide_True; [done|].
    apply Forall_cons. split; [done|]. apply Forall_forall.
    intros c. rewrite list_elem_of_filter. tauto. }
  cbn [columns].
  assert (Hkeep : filter (λ c, ignored "Time" c = false) (columns df)
                  = filter (λ c, dropped c = false) non_time).
  { unfold non_time. rewrite list_filter_filter. apply list_filter_iff.
    intros c. rewrite ignored_false. tauto. }
  split; [by rewrite Hkeep|].
  pose proof (final_data_cols df) as Hd. cbn [columns final] in Hd.
  unfold data_cols in Hd.
  split.
  { rewrite Hd. unfold split_roles. rewrite Hkeep.
    rewrite !list_filter_filter. repeat f_equal; apply list_filter_iff; intros c.
    - rewrite classify_EEG. tauto.
    - rewrite classify_ECG_raw. tauto.
    - rewrite classify_Reference. tauto. }
  split; [apply classify_EEG|]. split; [apply classify_ECG_raw|].
  split; [apply classify_Reference|]. split.
  { intros c. unfold dropped. rewrite orb_true_iff, bool_decide_eq_true.
    rewrite existsb_exists. setoid_rewrite <- list_elem_of_In. done. }
  split; [done|]. split; [|done].
  apply (bool_decide_unpack _). by vm_compute.
Qed.

Lemma role_name_not_ignored c : role_name c → ignored "Time" c = false.
Proof.
  assert (Heeg : Forall (λ c, ignored "Time" c = false) EEG_CHANNELS).
  { apply (bool_decide_unpack _). by vm_compute. }
  intros [Hc|[[->| ->]%ECG_CHANNELS_keys| ->]]; [|by vm_compute..].
  rewrite Forall_forall in Heeg. by apply Heeg.
Qed.

Lemma no_roles_iff df :
  no_roles df ↔ ¬ ∃ c, c ∈ columns df ∧ role_name c.
Proof.
  unfold no_roles. rewrite eeg_cols_eq, ecg_raw_cols_eq, cm_cols_eq. split.
  - intros (He & Hr & Hc) (c & Hin & Hrole).
    assert (Hd : c ∈ data_cols df).
    { unfold data_cols. apply list_elem_of_filter.
      split; [by apply role_name_not_ignored|done]. }
    destruct Hrole as [Hrole|[Hrole|Hrole]].
    + by eapply (filter_nil_not_elem_of _ _ c He).
    + by eapply (filter_nil_not_elem_of _ _ c Hr).
    + by eapply (filter_nil_not_elem_of _ _ c Hc).
  - intros Hno.
    assert (Hnil : ∀ (P : string → Prop) `{!∀ c, Decision (P c)},
               (∀ c, P c → role_name c) → filter P (data_cols df) = []).
    { intros P ? HP. destruct (filter P (data_cols df)) as [|c l] eqn:Hf; [done|].
      assert (Hc : c ∈ filter P (data_cols df)) by (rewrite Hf; left).
      apply list_elem_of_filter in Hc as [Hp Hc].
      destruct Hno. exists c. split; [by apply data_cols_columns|by apply HP]. }
    repeat split; apply Hnil; intros c Hc; unfold role_name; tauto.
Qed.

Lemma all_traces_nonempty df : ¬ no_roles df → all_traces df ≠ [].
Proof.
  intros Hr Hnil. apply Hr. apply (f_equal length) in Hnil.
  rewrite all_traces_length in Hnil. simpl in Hnil.
  unfold no_roles.
  destruct (eeg_cols df), (ecg_raw_cols df), (cm_cols df); simpl in *; (done || lia).
Qed.

(** C3, as the script has it: the run ends in [SystemExit] with a message
    exactly when the time column is absent or no column has a role (no column
    of the table bears a role name, which is to say that the three lists of
    [split_roles] are empty after filtering); when the
    time column and a column with a role are there, the scene is written,
    with at least one trace, if every ECG-raw column holds numbers or missing
    values on the rows kept, and the run ends in an uncaught [TypeError],
    before anything is written, if one of them holds text there. *)
Theorem exit_conditions df :
  NoDup (columns df) →
  ((∃ msg, main df = SystemExit msg) ↔
     "Time" ∉ columns df ∨ ¬ ∃ c, c ∈ columns df ∧ role_name c)
  ∧ ("Time" ∉ columns df →
     main df = SystemExit "Expected 'Time' column not found.")
  ∧ ("Time" ∈ columns df → (¬ ∃ c, c ∈ columns df ∧ role_name c) →
     main df = SystemExit
                 "No EEG/ECG/CM columns found after filtering. Check headers.")
  ∧ ("Time" ∈ columns df → (∃ c, c ∈ columns df ∧ role_name c) →
     ecg_numeric df → ∃ s, main df = Ok s ∧ data (fig s) ≠ [])
  ∧ ("Time" ∈ columns df → (∃ c, c ∈ columns df ∧ role_name c) →
     ¬ ecg_numeric df → main df = Raise TypeError)
  ∧ (no_roles df ↔ ¬ ∃ c, c ∈ columns df ∧ role_name c).
Proof.
  intros Hnd. rewrite <- no_roles_iff. rewrite (main_eq df Hnd).
  split; [split|split; [|split; [|split; [|split]]]].
  - intros [msg Hmsg].
    destruct (decide ("Time" ∉ columns df)); [by left|].
    destruct (decide (no_roles df)); [by right|].
    by destruct (decide (ecg_numeric df)).
  - intros [Ht|Hr].
    + rewrite decide_True by done. eauto.
    + destruct (decide ("Time" ∉ columns df)); [eauto|].
      rewrite decide_True by done. eauto.
  - intros Ht. by rewrite decide_True.
  - intros Ht Hr. rewrite decide_False by (intros Hn; by apply Hn).
    by rewrite decide_True.
  - intros Ht Hr Hnum. exists (expected_scene df).
    rewrite decide_False by (intros Hn; by apply Hn).
    rewrite decide_False by (intros Hn%no_roles_iff; by apply Hn).
    rewrite decide_True by done. split; [done|].
    apply all_traces_nonempty. intros Hn%no_roles_iff. by apply Hn.
  - intros Ht Hr Hnum.
    rewrite decide_False by (intros Hn; by apply Hn).
    rewrite decide_False by (intros Hn%no_roles_iff; by apply Hn).
    by rewrite decide_False.
  - done.
Qed.

Lemma lookup_group df i tr g :
  all_traces df !! i = Some tr → tr ∈ traces_of df g →
  let ne := length (eeg_cols df) in
  let nc := length (cm_cols df) in
  let nm := length (ecg_raw_cols df) in
  match g with
  | EEG => i < ne
  | CM => ne ≤ i < ne + nc
  | ECG_mV => ne + nc ≤ i < ne + nc + nm
  | ECG_uV => ne + nc + nm ≤ i < ne + nc + nm + nm
  end.
Proof.
  intros Hi Hg ne nc nm. apply lookup_lt_Some in Hi as Hlt.
  rewrite all_traces_length in Hlt. fold ne nc nm in Hlt.
  rewrite all_traces_lookup in Hi. fold ne nc nm in Hi.
  apply elem_of_traces_of in Hg.
  repeat case_decide;
    apply fmap_Some in Hi as (c & _ & ->);
    destruct g; destruct Hg as (c' & _ & Heq);
    apply (f_equal kind_fields) in Heq; try discriminate Heq; lia.
Qed.

(** C2, as the script has it: the vector of each unit button is computed
    once, when the scene is built.  Its EEG and Reference entries are the
    visibility those traces have then, which is visible; its ECG-mV and
    ECG-μV entries are set by the unit.  Selected while the EEG and Reference
    traces are as they were built, a unit button changes ECG entries only. *)
Theorem unit_toggle_vectors df s :
  NoDup (columns df) → main df = Ok s →
  ∃ v_mv v_uv,
    updatemenus s !! 1
    = Some [ {| label := "ECG in mV"; args_visible := v_mv;
                args_yaxis2_title := Some "ECG (mV) / CM (μV)" |};
             {| label := "ECG in μV"; args_visible := v_uv;
                args_yaxis2_title := Some "ECG (μV) / CM (μV)" |} ]
    ∧ length v_mv = length (data (fig s))
    ∧ length v_uv = length (data (fig s))
    ∧ (∀ i tr, data (fig s) !! i = Some tr →
         tr ∈ traces_of df EEG ∨ tr ∈ traces_of df CM →
         shown tr = true
         ∧ v_mv !! i = Some (shown tr) ∧ v_uv !! i = Some (shown tr))
    ∧ (∀ i tr, data (fig s) !! i = Some tr → tr ∈ traces_of df ECG_mV →
         v_mv !! i = Some true ∧ v_uv !! i = Some false)
    ∧ (∀ i tr, data (fig s) !! i = Some tr → tr ∈ traces_of df ECG_uV →
         v_mv !! i = Some false ∧ v_uv !! i = Some true)
    ∧ ∀ b current,
        b.(args_visible) = v_mv ∨ b.(args_visible) = v_uv →
        (∀ i tr, data (fig s) !! i = Some tr →
           tr ∈ traces_of df EEG ∨ tr ∈ traces_of df CM →
           current !! i = Some (shown tr)) →
        non_ecg_preserved df s current b.
Proof.
  intros Hnd Hmain.
  destruct (main_Ok_inv df s Hnd Hmain) as (_ & _ & _ & ->).
  cbn [fig data expected_scene updatemenus].
  eexists _, _. split; [reflexivity|].
  unfold block_vector. rewrite !vec_length, all_traces_length.
  do 2 (split; [lia|]).
  assert (Hnon : ∀ i tr, all_traces df !! i = Some tr →
            tr ∈ traces_of df EEG ∨ tr ∈ traces_of df CM →
            shown tr = true
            ∧ vec (length (eeg_cols df)) (length (cm_cols df))
                (length (ecg_raw_cols df)) (length (ecg_raw_cols df))
                true true true false !! i = Some (shown tr)
            ∧ vec (length (eeg_cols df)) (length (cm_cols df))
                (length (ecg_raw_cols df)) (length (ecg_raw_cols df))
                true true false true !! i = Some (shown tr)).
  { intros i tr Hi Hg. rewrite !vec_lookup.
    destruct Hg as [Hg|Hg]; pose proof (lookup_group df i tr _ Hi Hg) as Hpos;
      simpl in Hpos; apply elem_of_traces_of in Hg as (c & _ & ->);
      repeat case_decide; (done || lia). }
  split; [exact Hnon|]. split; [|split].
  - intros i tr Hi Hg. pose proof (lookup_group df i tr _ Hi Hg) as Hpos.
    simpl in Hpos. rewrite !vec_lookup. repeat case_decide; (done || lia).
  - intros i tr Hi Hg. pose proof (lookup_group df i tr _ Hi Hg) as Hpos.
    simpl in Hpos. rewrite !vec_lookup. repeat case_decide; (done || lia).
  - intros b current Hb Hcur i tr Hi Hg. unfold select.
    rewrite (Hcur i tr Hi Hg).
    destruct (Hnon i tr Hi Hg) as (_ & Hmv & Huv).
    by destruct Hb as [-> | ->].
Qed.

(** ** Further properties of the functions *)

Lemma list_setitem_ge {A : Type} (l : list A) (i : nat) (v : A) :
  ¬ i < length l → list_setitem l i v = Raise IndexError.
Proof. intros Hi. unfold list_setitem. by rewrite decide_False. Qed.

Lemma set_all_Ok_inv (idxs : list nat) (v : bool) (l l' : list bool) :
  set_all idxs v l = Ok l' →
  length l' = length l
  ∧ (∀ i, i ∈ idxs → i < length l ∧ l' !! i = Some v)
  ∧ (∀ i, i ∉ idxs → l' !! i = l !! i).
Proof.
  unfold set_all. revert l. induction idxs as [|j idxs IH]; intros l Hl.
  - simpl in Hl. injection Hl as <-. split; [reflexivity|]. split.
    + intros i Hi. by apply elem_of_nil in Hi.
    + intros i _. reflexivity.
  - cbn [for_each] in Hl.
    destruct (decide (j < length l)) as [Hj|Hj].
    2:{ rewrite list_setitem_ge in Hl by done. discriminate Hl. }
    rewrite list_setitem_lt in Hl by done. cbn [mbind result_bind] in Hl.
    destruct (IH _ Hl) as (Hlen & Hin & Hout).
    rewrite length_insert in Hlen, Hin. split; [done|]. split.
    + intros i Hi. destruct (decide (i ∈ idxs)) as [Hi'|Hi'].
      { by apply Hin. }
      apply elem_of_cons in Hi as [->|Hi]; [|done]. split; [done|].
      rewrite Hout by done. by apply list_lookup_insert_eq.
    + intros i Hi. apply not_elem_of_cons in Hi as [Hne Hi].
      rewrite Hout by done. by apply list_lookup_insert_ne.
Qed.

Lemma set_all_outcome (idxs : list nat) (v : bool) (l : list bool) :
  (Forall (λ i, i < length l) idxs → ∃ l', set_all idxs v l = Ok l')
  ∧ (¬ Forall (λ i, i < length l) idxs → set_all idxs v l = Raise IndexError).
Proof.
  unfold set_all. revert l. induction idxs as [|j idxs IH]; intros l.
  - split; [by eexists|]. intros Hn. destruct Hn. constructor.
  - cbn [for_each].
    destruct (decide (j < length l)) as [Hj|Hj].
    + rewrite !list_setitem_lt by done. cbn [mbind result_bind].
      destruct (IH (<[j:=v]> l)) as [IHok IHbad].
      rewrite length_insert in IHok, IHbad. split.
      * intros Hall. apply Forall_cons in Hall as [_ Hall]. by apply IHok.
      * intros Hall. apply IHbad. intros Hall'. apply Hall. by constructor.
    + rewrite !list_setitem_ge by done.
      split; [|done]. intros Hall. by apply Forall_cons in Hall as [? _].
Qed.

(** X14: [unit_mode_visibility], for any figure and any tracked indices: its
    result has one entry per trace; an entry tracked neither as ECG-mV nor as
    ECG-μV is the visibility the trace has when the function is called; an
    ECG-μV entry is true exactly in a mode other than ["mV"], and an ECG-mV
    entry that is not also tracked as ECG-μV is true exactly in mode ["mV"]. *)
Theorem unit_mode_visibility_entries fg ti mode vis :
  unit_mode_visibility fg ti mode = Ok vis →
  length vis = length (data fg)
  ∧ (∀ i tr, data fg !! i = Some tr →
       i ∉ idx_ECG_mV ti → i ∉ idx_ECG_uV ti → vis !! i = Some (shown tr))
  ∧ (∀ i, i ∈ idx_ECG_uV ti →
       i < length (data fg) ∧ vis !! i = Some (bool_decide (mode ≠ "mV")))
  ∧ (∀ i, i ∈ idx_ECG_mV ti → i ∉ idx_ECG_uV ti →
       i < length (data fg) ∧ vis !! i = Some (bool_decide (mode = "mV"))).
Proof.
  unfold unit_mode_visibility. cbn [trace_indices_get].
  set (vis0 := _ <$> data fg).
  assert (Hlen0 : length vis0 = length (data fg)) by apply length_fmap.
  assert (H0 : ∀ i tr, data fg !! i = Some tr → vis0 !! i = Some (shown tr)).
  { intros i tr Hi. unfold vis0. by rewrite list_lookup_fmap, Hi. }
  intros Hvis.
  assert (∃ v1, (∃ vis1, set_all (idx_ECG_mV ti) v1 vis0 = Ok vis1
                  ∧ set_all (idx_ECG_uV ti) (negb v1) vis1 = Ok vis)
                ∧ v1 = bool_decide (mode = "mV")) as (v1 & (vis1 & H1 & H2) & Hv1).
  { destruct (decide (mode = "mV")) as [Hm|Hm].
    - exists true. rewrite bool_decide_true by done. split; [|done].
      destruct (set_all (idx_ECG_mV ti) true vis0) as [vis1| |] eqn:H1;
        try done. by exists vis1.
    - exists false. rewrite bool_decide_false by done. split; [|done].
      destruct (set_all (idx_ECG_mV ti) false vis0) as [vis1| |] eqn:H1;
        try done. by exists vis1. }
  apply set_all_Ok_inv in H1 as (Hl1 & Hin1 & Hout1).
  apply set_all_Ok_inv in H2 as (Hl2 & Hin2 & Hout2).
  rewrite Hl1 in Hl2, Hin2. rewrite Hlen0 in Hl2, Hin2, Hin1.
  split; [done|]. split; [|split].
  - intros i tr Hi Hmv Huv. rewrite Hout2, Hout1 by done. by apply H0.
  - intros i Hi. destruct (Hin2 i Hi) as [Hlt ->]. split; [done|].
    f_equal. rewrite Hv1. by destruct (decide (mode = "mV"));
      [rewrite bool_decide_true, bool_decide_false by tauto
      |rewrite bool_decide_false, bool_decide_true by tauto].
  - intros i Hi Hn. destruct (Hin1 i Hi) as [Hlt Hv]. split; [done|].
    rewrite Hout2 by done. by rewrite Hv, Hv1.
Qed.

(** X15: [unit_mode_visibility] fails only with [IndexError], and does so
    exactly when a tracked ECG index is not the position of a trace. *)
Theorem unit_mode_visibility_outcome fg ti mode :
  (Forall (λ i, i < length (data fg)) (idx_ECG_mV ti ++ idx_ECG_uV ti) →
   ∃ vis, unit_mode_visibility fg ti mode = Ok vis)
  ∧ (¬ Forall (λ i, i < length (data fg)) (idx_ECG_mV ti ++ idx_ECG_uV ti) →
     unit_mode_visibility fg ti mode = Raise IndexError).
Proof.
  unfold unit_mode_visibility. cbn [trace_indices_get].
  set (vis0 := _ <$> data fg).
  assert (Hlen0 : length vis0 = length (data fg)) by apply length_fmap.
  rewrite <- Hlen0, Forall_app.
  assert (Hgen : ∀ v1 v2,
    (Forall (λ i, i < length vis0) (idx_ECG_mV ti)
     ∧ Forall (λ i, i < length vis0) (idx_ECG_uV ti) →
     ∃ vis, (set_all (idx_ECG_mV ti) v1 vis0
               ≫= set_all (idx_ECG_uV ti) v2) = Ok vis)
    ∧ (¬ (Forall (λ i, i < length vis0) (idx_ECG_mV ti)
          ∧ Forall (λ i, i < length vis0) (idx_ECG_uV ti)) →
       (set_all (idx_ECG_mV ti) v1 vis0
          ≫= set_all (idx_ECG_uV ti) v2) = Raise IndexError)).
  { intros v1 v2.
    destruct (set_all_outcome (idx_ECG_mV ti) v1 vis0) as [Hok1 Hbad1].
    destruct (decide (Forall (λ i, i < length vis0) (idx_ECG_mV ti)))
      as [Hmv|Hmv].
    - destruct (Hok1 Hmv) as [vis1 H1]. rewrite H1. cbn [mbind result_bind].
      apply set_all_Ok_inv in H1 as Hinv. destruct Hinv as (Hl1 & _ & _).
      destruct (set_all_outcome (idx_ECG_uV ti) v2 vis1) as [Hok2 Hbad2].
      rewrite Hl1 in Hok2, Hbad2. split.
      + intros [_ Huv]. by apply Hok2.
      + intros Hn. apply Hbad2. intros Huv. by apply Hn.
    - rewrite (Hbad1 Hmv). split; [|done]. by intros [? _]. }
  destruct (decide (mode = "mV")); apply Hgen.
Qed.

Lemma ignored_false_iff tcol c :
  ignored tcol c = false ↔ c ≠ tcol ∧ dropped c = false.
Proof.
  unfold ignored, dropped. rewrite <- orb_assoc, orb_false_iff.
  by rewrite bool_decide_eq_false.
Qed.

Lemma filter_columns_Ok df tcol :
  tcol ∈ columns df →
  filter_columns df tcol
  = Ok {| columns := tcol :: filter (λ c, ignored tcol c = false) (columns df);
          rows := (λ r, filter (λ kv, kv.1 ∈ tcol :: filter
                            (λ c, ignored tcol c = false) (columns df)) r)
                    <$> rows df |}.
Proof.
  intros Ht. unfold filter_columns, getitem_list. rewrite decide_True; [done|].
  apply Forall_cons. split; [done|]. apply Forall_forall.
  intros c. rewrite list_elem_of_filter. tauto.
Qed.

(** X10: [filter_columns] fails exactly when the time column is not in the
    table, and then with [KeyError], raised by [df[keep]]. *)
Theorem filter_columns_outcome df tcol :
  (filter_columns df tcol = Raise KeyError ↔ tcol ∉ columns df)
  ∧ ((∃ df', filter_columns df tcol = Ok df') ↔ tcol ∈ columns df).
Proof.
  destruct (decide (tcol ∈ columns df)) as [Ht|Ht].
  - rewrite filter_columns_Ok by done. split; split; try done; eauto.
  - assert (Hf : filter_columns df tcol = Raise KeyError).
    { unfold filter_columns, getitem_list. rewrite decide_False; [done|].
      intros Hall. by apply Forall_cons in Hall as [? _]. }
    rewrite Hf. split; split; try done. by intros [? ?].
Qed.

(** X11: the table [filter_columns] returns has the time column first and then
    the columns that are neither the time column nor excluded, in their
    order; it has as many rows; its labels are distinct if they were; every
    column it has reads as in the table given, and any other label raises
    [KeyError]. *)
Theorem filter_columns_keeps df tcol :
  tcol ∈ columns df →
  ∃ df' rest,
    filter_columns df tcol = Ok df'
    ∧ columns df' = tcol :: rest
    ∧ rest `sublist_of` columns df
    ∧ (∀ c, c ∈ rest ↔ c ∈ columns df ∧ c ≠ tcol ∧ dropped c = false)
    ∧ length (rows df') = length (rows df)
    ∧ (NoDup (columns df) → NoDup (columns df'))
    ∧ (∀ c, c ∈ columns df' → getitem df' c = getitem df c)
    ∧ (∀ c, c ∉ columns df' → getitem df' c = Raise KeyError).
Proof.
  intros Ht. eexists _, _. split; [by apply filter_columns_Ok|].
  cbn [columns rows]. split; [done|].
  split; [apply sublist_filter|]. split.
  { intros c. rewrite list_elem_of_filter, ignored_false_iff. tauto. }
  split; [by rewrite length_fmap|]. split.
  { intros Hnd. apply NoDup_cons. split; [|by apply NoDup_filter].
    rewrite list_elem_of_filter, ignored_false_iff. tauto. }
  split.
  - intros c Hc. unfold getitem. cbn [columns rows].
    rewrite decide_True by done. rewrite decide_True.
    2:{ apply elem_of_cons in Hc as [->|Hc]; [done|].
        apply list_elem_of_filter in Hc. tauto. }
    f_equal. rewrite <- list_fmap_compose. apply list_fmap_ext.
    intros _ r _. simpl. f_equal. rewrite map_lookup_filter.
    destruct (r !! c) as [v|]; [|done]. simpl. by rewrite option_guard_True.
  - intros c Hc. unfold getitem. cbn [columns]. by rewrite decide_False.
Qed.

(** X12: filtering a filtered table changes nothing. *)
Theorem filter_columns_idempotent df tcol :
  tcol ∈ columns df →
  ∃ df', filter_columns df tcol = Ok df' ∧ filter_columns df' tcol = Ok df'.
Proof.
  intros Ht. eexists. split; [by apply filter_columns_Ok|].
  rewrite filter_columns_Ok by (cbn [columns]; left). cbn [columns rows].
  assert (Hcols : filter (λ c, ignored tcol c = false)
                    (tcol :: filter (λ c, ignored tcol c = false) (columns df))
                  = filter (λ c, ignored tcol c = false) (columns df)).
  { rewrite filter_cons_False.
    2:{ rewrite ignored_false_iff. tauto. }
    rewrite list_filter_filter. apply list_filter_iff. tauto. }
  rewrite Hcols. do 2 f_equal. rewrite <- list_fmap_compose.
  apply list_fmap_ext. intros _ r _. simpl.
  rewrite map_filter_filter. apply map_filter_ext. tauto.
Qed.

Lemma split_roles_NoDup cols eeg ecg cm :
  NoDup cols → split_roles cols = (eeg, ecg, cm) →
  NoDup (eeg ++ ecg ++ cm)
  ∧ length eeg ≤ 21 ∧ length ecg ≤ 2 ∧ length cm ≤ 1
  ∧ length eeg + length ecg + length cm ≤ length cols.
Proof.
  intros Hnd Hs. unfold split_roles in Hs. injection Hs as <- <- <-.
  assert (Happ : NoDup (filter (λ c, c ∈ EEG_CHANNELS) cols
                        ++ filter (λ c, is_Some (ECG_CHANNELS !! c)) cols
                        ++ filter (λ c, c = "CM") cols)).
  { apply NoDup_app. split; [by apply NoDup_filter|]. split.
    - intros c [He _]%list_elem_of_filter.
      rewrite elem_of_app, !list_elem_of_filter. intros [[Hk _]|[-> _]].
      + by apply (ECG_key_not_EEG c).
      + by apply CM_not_EEG.
    - apply NoDup_app. split; [by apply NoDup_filter|].
      split; [|by apply NoDup_filter].
      intros c [Hk _]%list_elem_of_filter [-> _]%list_elem_of_filter.
      by apply CM_not_ECG_key. }
  split; [done|].
  apply NoDup_app in Happ as (He & _ & Happ).
  apply NoDup_app in Happ as (Hk & _ & Hc).
  split; [|split; [|split]].
  - change 21 with (length EEG_CHANNELS). apply submseteq_length.
    apply NoDup_submseteq; [done|]. intros c. rewrite list_elem_of_filter. tauto.
  - change 2 with (length ["X1:LEOG"; "X2:REOG"]). apply submseteq_length.
    apply NoDup_submseteq; [done|]. intros c. rewrite list_elem_of_filter.
    intros [[->| ->]%ECG_CHANNELS_keys _]; set_solver.
  - change 1 with (length ["CM"]). apply submseteq_length.
    apply NoDup_submseteq; [done|]. intros c. rewrite list_elem_of_filter.
    intros [-> _]. set_solver.
  - rewrite <- !length_app, <- (assoc_L (++)). apply submseteq_length.
    apply NoDup_submseteq.
    + apply NoDup_app. split; [done|]. split.
      * intros c [He' _]%list_elem_of_filter.
        rewrite elem_of_app, !list_elem_of_filter. intros [[Hk' _]|[-> _]].
        -- by apply (ECG_key_not_EEG c).
        -- by apply CM_not_EEG.
      * apply NoDup_app. split; [done|]. split; [|done].
        intros c [Hk' _]%list_elem_of_filter [-> _]%list_elem_of_filter.
        by apply CM_not_ECG_key.
    + intros c. rewrite !elem_of_app, !list_elem_of_filter. tauto.
Qed.
(** X13: [split_roles] on distinct labels gives three lists without repeats
    and without a common label, of at most 21, 2 and 1 labels, and together
    no longer than the list given. *)
Theorem split_roles_bounds cols eeg ecg cm :
  NoDup cols → split_roles cols = (eeg, ecg, cm) →
  NoDup (eeg ++ ecg ++ cm)
  ∧ length eeg ≤ 21 ∧ length ecg ≤ 2 ∧ length cm ≤ 1
  ∧ length eeg + length ecg + length cm ≤ length cols.
Proof. apply split_roles_NoDup. Qed.

Lemma data_cols_NoDup df : NoDup (columns df) → NoDup (data_cols df).
Proof. intros Hnd. by apply NoDup_filter. Qed.

Lemma role_lists_bounds df :
  NoDup (columns df) →
  NoDup (eeg_cols df) ∧ NoDup (cm_cols df)
  ∧ length (eeg_cols df) ≤ 21 ∧ length (ecg_raw_cols df) ≤ 2
  ∧ length (cm_cols df) ≤ 1.
Proof.
  intros Hnd.
  destruct (split_roles_NoDup (data_cols df) (eeg_cols df) (ecg_raw_cols df)
              (cm_cols df) (data_cols_NoDup df Hnd) eq_refl)
    as (Happ & He & Hk & Hc & _).
  apply NoDup_app in Happ as (? & _ & Happ).
  apply NoDup_app in Happ as (? & _ & ?). done.
Qed.

(** X1: on a table with distinct labels [main] ends in one of four ways: the
    scene is written, [SystemExit] with one of its two messages, or
    [TypeError]; it raises no [KeyError], [IndexError] or [ValueError], so
    every column it reads is there, every index it tracks is the position of
    a trace, and the right axis exists whenever a trace is put on it. *)
Theorem main_outcomes df :
  NoDup (columns df) →
  ((∃ s, main df = Ok s)
   ∨ main df = SystemExit "Expected 'Time' column not found."
   ∨ main df = SystemExit
                 "No EEG/ECG/CM columns found after filtering. Check headers."
   ∨ main df = Raise TypeError)
  ∧ ∀ e, main df = Raise e → e = TypeError.
Proof.
  intros Hnd. rewrite (main_eq df Hnd).
  destruct (decide ("Time" ∉ columns df)); [split; [tauto|done]|].
  destruct (decide (no_roles df)); [split; [tauto|done]|].
  destruct (decide (ecg_numeric df)); [split; [eauto|done]|].
  split; [tauto|]. by intros e [= <-].
Qed.

(** X2: a written scene has at least one trace and at most 26: at most 21
    EEG traces, one Reference trace and four ECG traces. *)
Theorem trace_count_bounds df s :
  NoDup (columns df) → main df = Ok s →
  1 ≤ length (data (fig s)) ≤ 26
  ∧ length (traces_of df EEG) ≤ 21 ∧ length (traces_of df CM) ≤ 1
  ∧ length (traces_of df ECG_mV) ≤ 2 ∧ length (traces_of df ECG_uV) ≤ 2.
Proof.
  intros Hnd Hmain.
  destruct (main_Ok_inv df s Hnd Hmain) as (_ & Hr & _ & ->).
  destruct (role_lists_bounds df Hnd) as (_ & _ & He & Hk & Hc).
  cbn [fig data expected_scene traces_of].
  pose proof (all_traces_nonempty df Hr) as Hne.
  rewrite all_traces_length, !length_fmap.
  assert (length (all_traces df) ≠ 0) as Hlen.
  { intros Hz. by apply Hne, nil_length_inv. }
  rewrite all_traces_length in Hlen. lia.
Qed.

Lemma NoDup_app_within {A : Type} (l1 l2 k1 k2 : list A) :
  NoDup (k1 ++ k2) → l1 ⊆ k1 → l2 ⊆ k2 → NoDup l1 → NoDup l2 →
  NoDup (l1 ++ l2).
Proof.
  intros (_ & Hdisj & _)%NoDup_app H1 H2 Hn1 Hn2. apply NoDup_app.
  split; [done|]. split; [|done]. intros a Ha1 Ha2.
  apply (Hdisj a); [by apply H1|by apply H2].
Qed.

(** X3: the traces of a written scene have distinct names, each one of the
    26 names the script can give: the 21 EEG labels, the Reference label and
    the four ECG labels. *)
Theorem trace_names_distinct df s :
  NoDup (columns df) → main df = Ok s →
  NoDup (go.name <$> data (fig s))
  ∧ ∀ tr, tr ∈ data (fig s) → go.name tr ∈ trace_labels.
Proof.
  intros Hnd Hmain.
  destruct (main_Ok_inv df s Hnd Hmain) as (_ & _ & _ & ->).
  destruct (role_lists_bounds df Hnd) as (Hne & Hnc & _ & _ & Hc).
  cbn [fig data expected_scene]. unfold all_traces, traces_of.
  assert (Hnames :
    go.name <$> ((eeg_trace df <$> eeg_cols df) ++ (cm_trace df <$> cm_cols df)
                 ++ (ecg_mv_trace df <$> ecg_raw_cols df)
                 ++ (ecg_uv_trace df <$> ecg_raw_cols df))
    = eeg_cols df ++ replicate (length (cm_cols df)) "CM (μV, reference)"
      ++ ((λ raw, nice raw +:+ " (mV)") <$> ecg_raw_cols df)
      ++ ((λ raw, nice raw +:+ " (μV)") <$> ecg_raw_cols df)).
  { rewrite !fmap_app, <- !list_fmap_compose. f_equal; [|f_equal].
    - by rewrite <- (list_fmap_id (eeg_cols df)) at 2.
    - by apply const_fmap. }
  assert (Hlab : NoDup trace_labels).
  { apply (bool_decide_unpack _). by vm_compute. }
  assert (Hsub1 : eeg_cols df ⊆ EEG_CHANNELS).
  { intros c. rewrite eeg_cols_eq, list_elem_of_filter. tauto. }
  assert (Hsub2 : replicate (length (cm_cols df)) "CM (μV, reference)"
                  ⊆ ["CM (μV, reference)"]).
  { intros c [-> _]%elem_of_replicate. left. }
  assert (Hsub3 : (λ raw, nice raw +:+ " (mV)") <$> ecg_raw_cols df
                  ⊆ ["ECG_Left (mV)"; "ECG_Right (mV)"]).
  { intros c (raw & -> & [->| ->]%ecg_raw_cols_key%ECG_CHANNELS_keys)%list_elem_of_fmap;
      vm_compute; set_solver. }
  assert (Hsub4 : (λ raw, nice raw +:+ " (μV)") <$> ecg_raw_cols df
                  ⊆ ["ECG_Left (μV)"; "ECG_Right (μV)"]).
  { intros c (raw & -> & [->| ->]%ecg_raw_cols_key%ECG_CHANNELS_keys)%list_elem_of_fmap;
      vm_compute; set_solver. }
  split.
  - rewrite Hnames. unfold trace_labels in Hlab.
    apply (NoDup_app_within _ _ _ _ Hlab); [done| |done|].
    { intros c. rewrite !elem_of_app.
      intros [Hc'|[Hc'|Hc']]; [left|right; left|right; right]; auto. }
    apply NoDup_app in Hlab as (_ & _ & Hlab).
    apply (NoDup_app_within _ _ _ _ Hlab); [done| | |].
    { intros c. rewrite !elem_of_app.
      intros [Hc'|Hc']; [left|right]; auto. }
    { destruct (cm_cols df) as [|? [|? ?]]; simpl in *;
        [constructor|apply NoDup_singleton|lia]. }
    apply NoDup_app in Hlab as (_ & _ & Hlab).
    apply (NoDup_app_within _ _ _ _ Hlab); [done|done| |];
      by apply ecg_labels_NoDup.
  - intros tr Htr. apply (list_elem_of_fmap_2 go.name) in Htr.
    rewrite Hnames in Htr. unfold trace_labels.
    rewrite !elem_of_app in Htr. rewrite !elem_of_app.
    destruct Htr as [Hn|[Hn|[Hn|Hn]]];
      [left|right; left|right; right; left|right; right; right]; auto.
Qed.

(** X7: in a written scene the left axis is titled ["EEG & CM (μV)"]; the
    right axis has its title exactly when it exists, and it is missing
    exactly when every trace is an EEG trace. *)
Theorem axis_titles df s :
  NoDup (columns df) → main df = Ok s →
  yaxis_title (fig s) = Some "EEG & CM (μV)"
  ∧ yaxis2_title (fig s)
    = (if has_secondary_y (fig s) then Some "ECG (mV) / CM (μV)" else None)
  ∧ (has_secondary_y (fig s) = false ↔
     Forall (λ tr, go.secondary_y tr = false) (data (fig s)))
  ∧ (has_secondary_y (fig s) = false ↔ data (fig s) = traces_of df EEG).
Proof.
  intros Hnd Hmain.
  destruct (main_Ok_inv df s Hnd Hmain) as (_ & _ & _ & ->).
  cbn [fig data expected_scene yaxis_title yaxis2_title has_secondary_y].
  do 2 (split; [done|]).
  assert (Hiff : use_secondary df = false ↔
                 ecg_raw_cols df = [] ∧ cm_cols df = []).
  { unfold use_secondary. rewrite bool_decide_eq_false.
    destruct (ecg_raw_cols df), (cm_cols df); simpl; split;
      try done; try lia; intros [? ?]; done. }
  rewrite Hiff. unfold all_traces, traces_of. split; split.
  - intros [-> ->]. rewrite !fmap_nil, !app_nil_r.
    apply Forall_fmap, Forall_forall. done.
  - intros Hall. apply Forall_app in Hall as [_ Hall].
    apply Forall_app in Hall as [Hc Hall].
    apply Forall_app in Hall as [Hm _].
    destruct (ecg_raw_cols df) as [|raw ecg], (cm_cols df) as [|c cm];
      try done.
    + rewrite fmap_cons in Hc. apply Forall_cons in Hc as [Hc _].
      discriminate Hc.
    + rewrite fmap_cons in Hm. apply Forall_cons in Hm as [Hm _].
      discriminate Hm.
    + rewrite fmap_cons in Hm. apply Forall_cons in Hm as [Hm _].
      discriminate Hm.
  - intros [-> ->]. by rewrite !fmap_nil, !app_nil_r.
  - intros Heq. apply (f_equal length) in Heq.
    rewrite !length_app, !length_fmap in Heq.
    destruct (ecg_raw_cols df), (cm_cols df); simpl in Heq; try done; lia.
Qed.

(** X8: the vector of the button "ECG in mV" is the visibility the traces
    are built with, so selecting it shows the chart as it opens, whatever
    was selected before. *)
Theorem mv_button_restores_initial df s :
  NoDup (columns df) → main df = Ok s →
  ∃ b_mv b_uv,
    updatemenus s !! 1 = Some [b_mv; b_uv]
    ∧ label b_mv = "ECG in mV"
    ∧ args_visible b_mv = shown <$> data (fig s)
    ∧ ∀ current, select b_mv current = shown <$> data (fig s).
Proof.
  intros Hnd Hmain.
  destruct (main_Ok_inv df s Hnd Hmain) as (_ & _ & _ & ->).
  cbn [fig data expected_scene updatemenus].
  eexists _, _. split; [reflexivity|]. split; [done|].
  cbn [args_visible]. unfold select. cbn [args_visible].
  pose proof (initial_vis df) as Hvis. fold (all_traces df) in Hvis.
  split; [by rewrite <- Hvis|]. intros _. by rewrite <- Hvis.
Qed.

(** X9: when the table has no ECG column the two unit buttons carry the
    vector of "All": every trace visible. *)
Theorem unit_toggle_without_ecg df s :
  NoDup (columns df) → main df = Ok s → ecg_raw_cols df = [] →
  map (map args_visible) (updatemenus s) !! 1
  = Some [ replicate (length (data (fig s))) true;
           replicate (length (data (fig s))) true ]
  ∧ Forall (λ tr, shown tr = true) (data (fig s)).
Proof.
  intros Hnd Hmain Hecg.
  destruct (main_Ok_inv df s Hnd Hmain) as (_ & _ & _ & ->).
  cbn [fig data expected_scene updatemenus map lookup list_lookup args_visible].
  rewrite all_traces_length. unfold block_vector, vec, all_traces, traces_of.
  rewrite Hecg. cbn [length replicate fmap list_fmap].
  rewrite !app_nil_r, Nat.mul_0_r, Nat.add_0_r, replicate_add. split; [done|].
  apply Forall_app. split; apply Forall_fmap, Forall_forall; done.
Qed.

Lemma kept_rows_nil df :
  (∀ r, r ∈ rows df →
        notna (to_numeric (default NaN (r !! "Time"))) = false) →
  kept_rows df = [].
Proof.
  intros Hall. unfold kept_rows.
  induction (rows df) as [|r rs IH]; [done|].
  rewrite fmap_cons, filter_cons_False.
  - apply IH. intros r' Hr'. apply Hall. by right.
  - unfold coerce. rewrite lookup_insert_eq. simpl.
    rewrite (Hall r) by left. done.
Qed.

(** X6: when no row has a numeric time, a table with the time column and a
    column with a role still gives a scene, whose traces are all empty. *)
Theorem no_numeric_time_empty_traces df :
  NoDup (columns df) → "Time" ∈ columns df →
  (∃ c, c ∈ columns df ∧ role_name c) →
  (∀ r, r ∈ rows df →
        notna (to_numeric (default NaN (r !! "Time"))) = false) →
  ∃ s, main df = Ok s
       ∧ data (fig s) ≠ []
       ∧ ∀ tr, tr ∈ data (fig s) → go.x tr = [] ∧ go.y tr = [].
Proof.
  intros Hnd Ht Hrole Hall.
  assert (Hrows : rows (cleaned df) = []).
  { by rewrite cleaned_rows, kept_rows_nil. }
  assert (Hser : ∀ c, series df c = []).
  { intros c. unfold series. by rewrite Hrows. }
  assert (Hr : ¬ no_roles df).
  { intros Hn%no_roles_iff. by apply Hn. }
  exists (expected_scene df). split.
  { apply main_Ok; try done. unfold ecg_numeric.
    apply Forall_forall. intros raw _. rewrite Hser. constructor. }
  split; [by apply all_traces_nonempty|].
  cbn [fig data expected_scene]. unfold all_traces.
  intros tr Htr. rewrite !elem_of_app in Htr.
  destruct Htr as [Htr|[Htr|[Htr|Htr]]]; apply elem_of_traces_of in Htr;
    destruct Htr as (c & _ & ->); simpl; by rewrite !Hser.
Qed.

Lemma roles_from_columns df df' :
  columns df' = columns df →
  eeg_cols df' = eeg_cols df ∧ ecg_raw_cols df' = ecg_raw_cols df
  ∧ cm_cols df' = cm_cols df.
Proof.
  intros Hc. unfold eeg_cols, ecg_raw_cols, cm_cols, data_cols.
  by rewrite Hc.
Qed.

Lemma style_all_traces df :
  style <$> all_traces df
  = ((λ ch, (ch, "lines", None, None, false)) <$> eeg_cols df)
    ++ ((λ _, ("CM (μV, reference)", "lines", None, Some "dot", true))
          <$> cm_cols df)
    ++ ((λ raw, (nice raw +:+ " (mV)", "lines", None, None, true))
          <$> ecg_raw_cols df)
    ++ ((λ raw, (nice raw +:+ " (μV)", "lines", Some false, None, true))
          <$> ecg_raw_cols df).
Proof.
  unfold all_traces, traces_of. by rewrite !fmap_app, <- !list_fmap_compose.
Qed.

(** X4: everything of the scene but the values plotted is fixed by the
    column labels: two tables with the same labels give the same menus, the
    same axes and titles, and traces with the same names, line styles,
    initial visibility and axis, in the same order. *)
Theorem layout_from_header df df' s s' :
  NoDup (columns df) → columns df' = columns df →
  main df = Ok s → main df' = Ok s' →
  updatemenus s' = updatemenus s
  ∧ has_secondary_y (fig s') = has_secondary_y (fig s)
  ∧ yaxis_title (fig s') = yaxis_title (fig s)
  ∧ yaxis2_title (fig s') = yaxis2_title (fig s)
  ∧ style <$> data (fig s') = style <$> data (fig s).
Proof.
  intros Hnd Hc Hmain Hmain'.
  destruct (main_Ok_inv df s Hnd Hmain) as (_ & _ & _ & ->).
  rewrite <- Hc in Hnd.
  destruct (main_Ok_inv df' s' Hnd Hmain') as (_ & _ & _ & ->).
  destruct (roles_from_columns df df' Hc) as (He & Hk & Hm).
  cbn [fig data expected_scene updatemenus has_secondary_y yaxis_title
       yaxis2_title].
  rewrite !style_all_traces. unfold block_vector, use_secondary.
  by rewrite He, Hk, Hm.
Qed.

Lemma kept_rows_Permutation df df' :
  rows df' ≡ₚ rows df → kept_rows df' ≡ₚ kept_rows df.
Proof. intros Hp. unfold kept_rows. by rewrite Hp. Qed.

Lemma cleaned_rows_Permutation df df' :
  rows df' ≡ₚ rows df → rows (cleaned df') ≡ₚ rows (cleaned df).
Proof.
  intros Hp. rewrite !cleaned_rows, !merge_sort_Permutation.
  by apply kept_rows_Permutation.
Qed.

Lemma cleaned_times df :
  ∃ ts, series df "Time" = Num <$> ts ∧ Sorted num_le ts
        ∧ ts = omap sort_key (series df "Time").
Proof.
  destruct (sorted_times (rows (cleaned df))) as (ts & Hts & Hsorted).
  { apply Forall_forall. intros r Hr. apply (kept_rows_numeric df).
    rewrite cleaned_rows, merge_sort_Permutation in Hr. done. }
  { rewrite cleaned_rows. apply (Sorted_merge_sort _). }
  exists ts. unfold series. rewrite Hts. split; [done|]. split; [done|].
  clear. induction ts as [|t ts IH]; [done|].
  rewrite fmap_cons. cbn [omap list_omap sort_key]. by rewrite <- IH.
Qed.

Lemma series_times_eq df df' :
  Transitive num_le → AntiSymm (=) num_le →
  rows df' ≡ₚ rows df → series df' "Time" = series df "Time".
Proof.
  intros Htr Has Hp.
  destruct (cleaned_times df) as (ts & Hts & Hs & Ho).
  destruct (cleaned_times df') as (ts' & Hts' & Hs' & Ho').
  rewrite Hts, Hts'. f_equal. apply (Sorted_unique num_le); [done..|].
  rewrite Ho, Ho'. unfold series.
  by rewrite (cleaned_rows_Permutation df df' Hp).
Qed.

Lemma points_Permutation df df' (f : cell → cell) c :
  rows df' ≡ₚ rows df →
  zip (series df' "Time") (f <$> series df' c)
  ≡ₚ zip (series df "Time") (f <$> series df c).
Proof.
  intros Hp. unfold series. rewrite <- !list_fmap_compose.
  rewrite !zip_with_fmap_l, !zip_with_fmap_r, !zip_with_diag.
  by rewrite (cleaned_rows_Permutation df df' Hp).
Qed.

(** X5: the order of the rows of the table does not matter, when the order
    on numbers is transitive and antisymmetric: a table with the same
    labels and the same rows in another order gives a scene too, with the
    same menus, and trace by trace the same name, the same time axis and the
    same points, up to the order of points of equal time. *)
Theorem row_order_irrelevant df df' s :
  Transitive num_le → AntiSymm (=) num_le →
  NoDup (columns df) → columns df' = columns df → rows df' ≡ₚ rows df →
  main df = Ok s →
  ∃ s', main df' = Ok s'
        ∧ updatemenus s' = updatemenus s
        ∧ Forall2 (λ tr' tr, style tr' = style tr
                             ∧ go.x tr' = go.x tr
                             ∧ points tr' ≡ₚ points tr)
            (data (fig s')) (data (fig s)).
Proof.
  intros Htr Has Hnd Hc Hp Hmain.
  destruct (main_Ok_inv df s Hnd Hmain) as (Ht & Hr & Hnum & ->).
  destruct (roles_from_columns df df' Hc) as (He & Hk & Hm).
  exists (expected_scene df'). split.
  { apply main_Ok.
    - by rewrite Hc.
    - by rewrite Hc.
    - unfold no_roles. by rewrite He, Hk, Hm.
    - unfold ecg_numeric in *. rewrite Hk. eapply Forall_impl; [exact Hnum|].
      intros raw Hraw. simpl in *. unfold series in *.
      by rewrite (cleaned_rows_Permutation df df' Hp). }
  cbn [fig data expected_scene updatemenus].
  split; [unfold block_vector; by rewrite He, Hk, Hm|].
  pose proof (series_times_eq df df' Htr Has Hp) as Hx.
  unfold all_traces, traces_of. rewrite He, Hk, Hm.
  pose proof (λ c, points_Permutation df df' id c Hp) as Hid.
  setoid_rewrite list_fmap_id in Hid.
  repeat apply Forall2_app; apply Forall2_fmap, Forall_Forall2_diag,
    Forall_forall; intros c _; (split; [done|]); (split; [exact Hx|]);
    unfold points; simpl.
  - apply Hid.
  - apply Hid.
  - apply Hid.
  - by apply points_Permutation.
Qed.

End Run.

(** * The script on example tables *)

Ltac by_evaluation :=
  match goal with
  | |- ?P => apply (bool_decide_unpack P); vm_compute; exact I
  end.

(** [main] evaluated on the scenario table: one EEG trace, one Reference
    trace, the two ECG traces, and no trace for [Trigger]; the row without a
    numeric time is gone and the others are in order of time. *)

Example scenario_names :
  match main scenario with Ok s => go.name <$> data (fig s) | _ => [] end
  = ["Fz"; "CM (μV, reference)"; "ECG_Left (mV)"; "ECG_Left (μV)"].
Proof. vm_compute. reflexivity. Qed.

Example scenario_times :
  match main scenario with
  | Ok s => (λ tr, omap sort_key (go.x tr)) <$> data (fig s)
  | _ => []
  end = [[0; 1; 2]; [0; 1; 2]; [0; 1; 2]; [0; 1; 2]]%Z.
Proof. vm_compute. reflexivity. Qed.

Example scenario_values :
  match main scenario with
  | Ok s => (λ tr, omap sort_key (go.y tr)) <$> data (fig s)
  | _ => []
  end = [[10; 15; 20]; [3; 2; 1]; [5; 7]; [5000; 7000]]%Z.
Proof. vm_compute. reflexivity. Qed.

Example scenario_visible :
  match main scenario with Ok s => go.visible <$> data (fig s) | _ => [] end
  = [None; None; None; Some false].
Proof. vm_compute. reflexivity. Qed.

Example scenario_vectors :
  match main scenario with
  | Ok s => map (map args_visible) (updatemenus s)
  | _ => []
  end = [ [ [true; true; true; true]; [true; false; false; false];
            [false; true; true; false] ];
          [ [true; true; true; false]; [true; true; false; true] ] ].
Proof. vm_compute. reflexivity. Qed.

Example ecg_text_outcome :
  match main ecg_text with Raise e => Some e | _ => None end = Some TypeError.
Proof. vm_compute. reflexivity. Qed.

Example no_time_outcome :
  match main {| columns := ["Fz"; "CM"]; rows := [] |} with
  | SystemExit msg => msg
  | _ => ""
  end = "Expected 'Time' column not found.".
Proof. vm_compute. reflexivity. Qed.

Example no_role_outcome :
  match main {| columns := ["Time"; "Trigger"; "Event"]; rows := [] |} with
  | SystemExit msg => msg
  | _ => ""
  end = "No EEG/ECG/CM columns found after filtering. Check headers.".
Proof. vm_compute. reflexivity. Qed.

(** * The properties on the scenario table *)

Lemma scenario_NoDup : NoDup (columns scenario).
Proof. by_evaluation. Defined.

Lemma scenario_time : "Time" ∈ columns scenario.
Proof. by_evaluation. Defined.

Lemma scenario_main : main scenario = Ok (expected_scene scenario).
Proof. apply main_Ok; by_evaluation. Defined.

Lemma ecg_two_traces_scenario :
  NoDup (columns scenario) ∧ main scenario = Ok (expected_scene scenario)
  ∧ (let ne := length (eeg_cols scenario) in
  let nc := length (cm_cols scenario) in
  let nm := length (ecg_raw_cols scenario) in
  length (data (fig (expected_scene scenario))) = ne + nc + 2 * nm
  ∧ take (ne + nc) (data (fig (expected_scene scenario))) = traces_of scenario EEG ++ traces_of scenario CM
  ∧ ∀ i raw, ecg_raw_cols scenario !! i = Some raw →
      ∃ mv uv,
        data (fig (expected_scene scenario)) !! (ne + nc + i) = Some mv
        ∧ data (fig (expected_scene scenario)) !! (ne + nc + nm + i) = Some uv
        ∧ ECG_CHANNELS !! raw = Some (nice raw)
        ∧ go.name mv = nice raw +:+ " (mV)"
        ∧ go.name uv = nice raw +:+ " (μV)"
        ∧ go.x uv = go.x mv
        ∧ getitem (cleaned scenario) raw = Ok (go.y mv)
        ∧ series_map cell_mul_1000 (go.y mv) = Ok (go.y uv)
        ∧ ∀ j c, go.y mv !! j = Some c →
            ∃ c', cell_mul_1000 c = Ok c' ∧ go.y uv !! j = Some c').
Proof.
  split; [exact scenario_NoDup|]. split; [exact scenario_main|].
  exact (ecg_two_traces scenario (expected_scene scenario)
           scenario_NoDup scenario_main).
Defined.

Lemma unit_toggle_vectors_scenario :
  NoDup (columns scenario) ∧ main scenario = Ok (expected_scene scenario)
  ∧ (∃ v_mv v_uv,
    updatemenus (expected_scene scenario) !! 1
    = Some [ {| label := "ECG in mV"; args_visible := v_mv;
                args_yaxis2_title := Some "ECG (mV) / CM (μV)" |};
             {| label := "ECG in μV"; args_visible := v_uv;
                args_yaxis2_title := Some "ECG (μV) / CM (μV)" |} ]
    ∧ length v_mv = length (data (fig (expected_scene scenario)))
    ∧ length v_uv = length (data (fig (expected_scene scenario)))
    ∧ (∀ i tr, data (fig (expected_scene scenario)) !! i = Some tr →
         tr ∈ traces_of scenario EEG ∨ tr ∈ traces_of scenario CM →
         shown tr = true
         ∧ v_mv !! i = Some (shown tr) ∧ v_uv !! i = Some (shown tr))
    ∧ (∀ i tr, data (fig (expected_scene scenario)) !! i = Some tr → tr ∈ traces_of scenario ECG_mV →
         v_mv !! i = Some true ∧ v_uv !! i = Some false)
    ∧ (∀ i tr, data (fig (expected_scene scenario)) !! i = Some tr → tr ∈ traces_of scenario ECG_uV →
         v_mv !! i = Some false ∧ v_uv !! i = Some true)
    ∧ ∀ b current,
        b.(args_visible) = v_mv ∨ b.(args_visible) = v_uv →
        (∀ i tr, data (fig (expected_scene scenario)) !! i = Some tr →
           tr ∈ traces_of scenario EEG ∨ tr ∈ traces_of scenario CM →
           current !! i = Some (shown tr)) →
        non_ecg_preserved scenario (expected_scene scenario) current b).
Proof.
  split; [exact scenario_NoDup|]. split; [exact scenario_main|].
  exact (unit_toggle_vectors scenario (expected_scene scenario)
           scenario_NoDup scenario_main).
Defined.

Lemma rows_dropped_and_sorted_scenario :
  NoDup (columns scenario) ∧ main scenario = Ok (expected_scene scenario)
  ∧ (∃ (rs : list (gmap string cell)) (ts : list num),
    rs ≡ₚ filter (λ r, notna (default NaN (r !! "Time")) = true)
            (coerce <$> rows scenario)
    ∧ (∀ r, r ∈ rows scenario →
         coerce r ∈ rs ↔ notna (to_numeric (default NaN (r !! "Time"))) = true)
    ∧ (λ r, default NaN (r !! "Time")) <$> rs = Num <$> ts
    ∧ Sorted num_le ts
    ∧ ∀ tr, tr ∈ data (fig (expected_scene scenario)) →
        go.x tr = Num <$> ts
        ∧ ∃ c, go.y tr = (λ r, default NaN (r !! c)) <$> rs
               ∨ go.y tr = (λ r, scaled (default NaN (r !! c))) <$> rs).
Proof.
  split; [exact scenario_NoDup|]. split; [exact scenario_main|].
  exact (rows_dropped_and_sorted scenario (expected_scene scenario)
           scenario_NoDup scenario_main).
Defined.

Lemma preset_vectors_scenario :
  NoDup (columns scenario) ∧ main scenario = Ok (expected_scene scenario)
  ∧ (let ne := length (eeg_cols scenario) in
  let nc := length (cm_cols scenario) in
  let nm := length (ecg_raw_cols scenario) in
  data (fig (expected_scene scenario)) = traces_of scenario EEG ++ traces_of scenario CM
                 ++ traces_of scenario ECG_mV ++ traces_of scenario ECG_uV
  ∧ length (traces_of scenario EEG) = ne ∧ length (traces_of scenario CM) = nc
  ∧ length (traces_of scenario ECG_mV) = nm ∧ length (traces_of scenario ECG_uV) = nm
  ∧ length (data (fig (expected_scene scenario))) = ne + nc + 2 * nm
  ∧ ∃ v_all v_eeg v_other,
      updatemenus (expected_scene scenario) !! 0
      = Some [ {| label := "All"; args_visible := v_all;
                  args_yaxis2_title := None |};
               {| label := "EEG only"; args_visible := v_eeg;
                  args_yaxis2_title := None |};
               {| label := "ECG+CM only"; args_visible := v_other;
                  args_yaxis2_title := None |} ]
      ∧ length v_all = length (data (fig (expected_scene scenario)))
      ∧ length v_eeg = length (data (fig (expected_scene scenario)))
      ∧ length v_other = length (data (fig (expected_scene scenario)))
      ∧ v_all = replicate (length (data (fig (expected_scene scenario)))) true
      ∧ (∀ i, v_eeg !! i = Some true ↔ i < ne)
      ∧ length (filter (λ b, b = true) v_eeg) = ne
      ∧ (∀ i, v_other !! i = Some true ↔ ne ≤ i < ne + nc + nm)
      ∧ (∀ i, ne + nc + nm ≤ i < ne + nc + nm + nm → v_other !! i = Some false)).
Proof.
  split; [exact scenario_NoDup|]. split; [exact scenario_main|].
  exact (preset_vectors scenario (expected_scene scenario)
           scenario_NoDup scenario_main).
Defined.

Lemma initial_visibility_scenario :
  NoDup (columns scenario) ∧ main scenario = Ok (expected_scene scenario)
  ∧ (data (fig (expected_scene scenario)) = traces_of scenario EEG ++ traces_of scenario CM
                 ++ traces_of scenario ECG_mV ++ traces_of scenario ECG_uV
  ∧ ∀ g tr, tr ∈ traces_of scenario g →
      go.visible tr = (if decide (g = ECG_uV) then Some false else None)
      ∧ shown tr = bool_decide (g ≠ ECG_uV)).
Proof.
  split; [exact scenario_NoDup|]. split; [exact scenario_main|].
  exact (initial_visibility scenario (expected_scene scenario)
           scenario_NoDup scenario_main).
Defined.

Lemma secondary_axis_scenario :
  NoDup (columns scenario) ∧ main scenario = Ok (expected_scene scenario)
  ∧ (data (fig (expected_scene scenario)) = traces_of scenario EEG ++ traces_of scenario CM
                 ++ traces_of scenario ECG_mV ++ traces_of scenario ECG_uV
  ∧ (has_secondary_y (fig (expected_scene scenario)) = true ↔
     0 < length (traces_of scenario ECG_mV) + length (traces_of scenario ECG_uV)
         + length (traces_of scenario CM))
  ∧ ∀ g tr, tr ∈ traces_of scenario g → go.secondary_y tr = bool_decide (g ≠ EEG)).
Proof.
  split; [exact scenario_NoDup|]. split; [exact scenario_main|].
  exact (secondary_axis scenario (expected_scene scenario)
           scenario_NoDup scenario_main).
Defined.

Lemma trace_names_and_lines_scenario :
  NoDup (columns scenario) ∧ main scenario = Ok (expected_scene scenario)
  ∧ (data (fig (expected_scene scenario)) = traces_of scenario EEG ++ traces_of scenario CM
                 ++ traces_of scenario ECG_mV ++ traces_of scenario ECG_uV
  ∧ go.name <$> traces_of scenario EEG = eeg_cols scenario
  ∧ go.name <$> traces_of scenario CM
    = replicate (length (cm_cols scenario)) "CM (μV, reference)"
  ∧ go.name <$> traces_of scenario ECG_mV
    = (λ raw, nice raw +:+ " (mV)") <$> ecg_raw_cols scenario
  ∧ go.name <$> traces_of scenario ECG_uV
    = (λ raw, nice raw +:+ " (μV)") <$> ecg_raw_cols scenario
  ∧ (∀ raw, raw ∈ ecg_raw_cols scenario → ECG_CHANNELS !! raw = Some (nice raw))
  ∧ ∀ g tr, tr ∈ traces_of scenario g →
      go.line_dash tr = (if decide (g = CM) then Some "dot" else None)).
Proof.
  split; [exact scenario_NoDup|]. split; [exact scenario_main|].
  exact (trace_names_and_lines scenario (expected_scene scenario)
           scenario_NoDup scenario_main).
Defined.

Lemma trace_order_scenario :
  NoDup (columns scenario) ∧ main scenario = Ok (expected_scene scenario)
  ∧ (data (fig (expected_scene scenario)) = traces_of scenario EEG ++ traces_of scenario CM
                 ++ traces_of scenario ECG_mV ++ traces_of scenario ECG_uV
  ∧ (∀ i ch, eeg_cols scenario !! i = Some ch →
       data (fig (expected_scene scenario)) !! i = Some (eeg_trace scenario ch))
  ∧ (∀ i ch, cm_cols scenario !! i = Some ch →
       data (fig (expected_scene scenario)) !! (length (eeg_cols scenario) + i) = Some (cm_trace scenario ch))
  ∧ (∀ i raw, ecg_raw_cols scenario !! i = Some raw →
       data (fig (expected_scene scenario)) !! (length (eeg_cols scenario) + length (cm_cols scenario) + i)
       = Some (ecg_mv_trace scenario raw)
       ∧ data (fig (expected_scene scenario)) !! (length (eeg_cols scenario) + length (cm_cols scenario)
                          + length (ecg_raw_cols scenario) + i)
         = Some (ecg_uv_trace scenario raw))
  ∧ eeg_cols scenario `sublist_of` columns scenario
  ∧ cm_cols scenario `sublist_of` columns scenario
  ∧ ecg_raw_cols scenario `sublist_of` columns scenario
  ∧ map (map args_visible) (updatemenus (expected_scene scenario))
    = [ [ block_vector scenario true true true true;
          block_vector scenario true false false false;
          block_vector scenario false true true false ];
        [ block_vector scenario true true true false;
          block_vector scenario true true false true ] ]).
Proof.
  split; [exact scenario_NoDup|]. split; [exact scenario_main|].
  exact (trace_order scenario (expected_scene scenario)
           scenario_NoDup scenario_main).
Defined.

Lemma classification_by_name_scenario :
  "Time" ∈ columns scenario
  ∧ (let non_time := filter (λ c, c ≠ "Time") (columns scenario) in
  ∃ scenario',
    filter_columns scenario "Time" = Ok scenario'
    ∧ columns scenario' = "Time" :: filter (λ c, dropped c = false) non_time
    ∧ split_roles (filter (λ c, c ≠ "Time") (columns scenario'))
      = (filter (λ c, classify c = Role_EEG) non_time,
         filter (λ c, classify c = Role_ECG_raw) non_time,
         filter (λ c, classify c = Role_Reference) non_time)
    ∧ (∀ c, classify c = Role_EEG ↔ dropped c = false ∧ c ∈ EEG_CHANNELS)
    ∧ (∀ c, classify c = Role_ECG_raw ↔
            dropped c = false ∧ is_Some (ECG_CHANNELS !! c))
    ∧ (∀ c, classify c = Role_Reference ↔ dropped c = false ∧ c = "CM")
    ∧ (∀ c, dropped c = true ↔
            c ∈ IGNORE_EXACT ∨ ∃ pfx, pfx ∈ IGNORE_PREFIXES ∧ startswith c pfx = true)
    ∧ length EEG_CHANNELS = 21 ∧ NoDup EEG_CHANNELS
    ∧ size ECG_CHANNELS = 2).
Proof.
  split; [exact scenario_time|].
  exact (classification_by_name scenario scenario_time).
Defined.

Lemma exit_conditions_scenario :
  NoDup (columns scenario)
  ∧ (((∃ msg, main scenario = SystemExit msg) ↔
     "Time" ∉ columns scenario ∨ ¬ ∃ c, c ∈ columns scenario ∧ role_name c)
  ∧ ("Time" ∉ columns scenario →
     main scenario = SystemExit "Expected 'Time' column not found.")
  ∧ ("Time" ∈ columns scenario → (¬ ∃ c, c ∈ columns scenario ∧ role_name c) →
     main scenario = SystemExit
                 "No EEG/ECG/CM columns found after filtering. Check headers.")
  ∧ ("Time" ∈ columns scenario → (∃ c, c ∈ columns scenario ∧ role_name c) →
     ecg_numeric scenario → ∃ s, main scenario = Ok s ∧ data (fig s) ≠ [])
  ∧ ("Time" ∈ columns scenario → (∃ c, c ∈ columns scenario ∧ role_name c) →
     ¬ ecg_numeric scenario → main scenario = Raise TypeError)
  ∧ (no_roles scenario ↔ ¬ ∃ c, c ∈ columns scenario ∧ role_name c)).
Proof.
  split; [exact scenario_NoDup|].
  exact (exit_conditions scenario scenario_NoDup).
Defined.

(** C3 as stated fails on [ecg_text]: the table has the time column and an
    ECG column, and the run ends in [TypeError] where the column is scaled,
    so nothing is written. *)
Lemma text_in_ecg_column_raises :
  "Time" ∈ columns ecg_text
  ∧ (∃ c, c ∈ columns ecg_text ∧ role_name c)
  ∧ main ecg_text = Raise TypeError
  ∧ ¬ ∃ s, main ecg_text = Ok s.
Proof.
  assert (Hmain : main ecg_text = Raise TypeError).
  { apply main_TypeError; by_evaluation. }
  split; [by_evaluation|]. split.
  { exists "X1:LEOG". unfold role_name. split; by_evaluation. }
  split; [exact Hmain|]. intros [s Hs]. rewrite Hmain in Hs. discriminate.
Qed.

(** C2 as stated fails on [scenario]: after the preset "ECG+CM only" the EEG
    trace [Fz] is hidden, and selecting "ECG in mV" then makes it visible,
    so the unit button does not carry the visibility of an EEG trace over. *)
Lemma unit_toggle_resets_eeg :
  let s := expected_scene scenario in
  let b_other := {| label := "ECG+CM only";
                    args_visible := [false; true; true; false];
                    args_yaxis2_title := None |} in
  let b_mv := {| label := "ECG in mV";
                 args_visible := [true; true; true; false];
                 args_yaxis2_title := Some "ECG (mV) / CM (μV)" |} in
  let current := select b_other (shown <$> data (fig s)) in
  main scenario = Ok s
  ∧ (∃ b1 b2, updatemenus s !! 0 = Some [b1; b2; b_other])
  ∧ (∃ b2, updatemenus s !! 1 = Some [b_mv; b2])
  ∧ data (fig s) !! 0 = Some (eeg_trace scenario "Fz")
  ∧ eeg_trace scenario "Fz" ∈ traces_of scenario EEG
  ∧ current !! 0 = Some false
  ∧ select b_mv current !! 0 = Some true
  ∧ ¬ non_ecg_preserved scenario s current b_mv.
Proof.
  intros s b_other b_mv current.
  assert (Heeg : eeg_cols scenario = ["Fz"]) by (vm_compute; reflexivity).
  assert (Hother : block_vector scenario false true true false
                   = [false; true; true; false]) by (vm_compute; reflexivity).
  assert (Hmv : block_vector scenario true true true false
                = [true; true; true; false]) by (vm_compute; reflexivity).
  assert (Hfz : data (fig s) !! 0 = Some (eeg_trace scenario "Fz")).
  { unfold s. cbn [fig data expected_scene]. rewrite all_traces_lookup.
    rewrite Heeg. reflexivity. }
  assert (Hin : eeg_trace scenario "Fz" ∈ traces_of scenario EEG).
  { cbn [traces_of]. rewrite Heeg. left. }
  split; [exact scenario_main|].
  unfold s. cbn [updatemenus expected_scene]. rewrite Hother, Hmv.
  split; [by eexists _, _|]. split; [by eexists|].
  do 4 (split; [done|]).
  intros Hp. specialize (Hp 0 (eeg_trace scenario "Fz") Hfz (or_introl Hin)).
  discriminate Hp.
Qed.

(** * The further properties on example tables *)

Lemma scenario_split :
  split_roles (columns scenario) = (["Fz"], ["X1:LEOG"], ["CM"]).
Proof. vm_compute. reflexivity. Defined.

Lemma scenario_reversed_NoDup : NoDup (columns scenario_reversed).
Proof. exact scenario_NoDup. Defined.

Lemma scenario_reversed_columns : columns scenario_reversed = columns scenario.
Proof. reflexivity. Defined.

Lemma scenario_reversed_rows : rows scenario_reversed ≡ₚ rows scenario.
Proof. apply reverse_Permutation. Defined.

Lemma scenario_reversed_main :
  main scenario_reversed = Ok (expected_scene scenario_reversed).
Proof. apply main_Ok; by_evaluation. Defined.

Lemma Z_num_le_trans : Transitive (@num_le Z_Number).
Proof.
  intros u v w. unfold num_le. simpl. rewrite !Z.leb_le. apply Z.le_trans.
Defined.

Lemma Z_num_le_antisymm : AntiSymm (=) (@num_le Z_Number).
Proof.
  intros u v. unfold num_le. simpl. rewrite !Z.leb_le. apply Z.le_antisymm.
Defined.

Lemma eeg_only_NoDup : NoDup (columns eeg_only).
Proof. by_evaluation. Defined.

Lemma eeg_only_main : main eeg_only = Ok (expected_scene eeg_only).
Proof. apply main_Ok; by_evaluation. Defined.

Lemma eeg_only_no_ecg : ecg_raw_cols eeg_only = [].
Proof. vm_compute. reflexivity. Defined.

Lemma no_times_NoDup : NoDup (columns no_times).
Proof. by_evaluation. Defined.

Lemma no_times_time : "Time" ∈ columns no_times.
Proof. by_evaluation. Defined.

Lemma no_times_role : ∃ c, c ∈ columns no_times ∧ role_name c.
Proof. exists "Fz". unfold role_name. split; by_evaluation. Defined.

Lemma no_times_rows :
  ∀ r, r ∈ rows no_times →
       notna (to_numeric (default NaN (r !! "Time"))) = false.
Proof.
  apply Forall_forall.
  repeat (apply Forall_cons; split; [vm_compute; reflexivity|]).
  apply Forall_nil_2.
Defined.

Lemma two_ecg_uV :
  unit_mode_visibility two_ecg_traces two_ecg_indices "uV" = Ok [false; true].
Proof. vm_compute. reflexivity. Defined.

Lemma main_outcomes_example :
  (NoDup (columns scenario))
  ∧ (((∃ s, main scenario = Ok s)
   ∨ main scenario = SystemExit "Expected 'Time' column not found."
   ∨ main scenario = SystemExit
                 "No EEG/ECG/CM columns found after filtering. Check headers."
   ∨ main scenario = Raise TypeError)
  ∧ ∀ e, main scenario = Raise e → e = TypeError).
Proof.
  split; [exact scenario_NoDup|].
  exact (main_outcomes scenario
           scenario_NoDup).
Defined.

Lemma trace_count_bounds_example :
  (NoDup (columns scenario))
  ∧ (main scenario = Ok (expected_scene scenario))
  ∧ (1 ≤ length (data (fig (expected_scene scenario))) ≤ 26
  ∧ length (traces_of scenario EEG) ≤ 21 ∧ length (traces_of scenario CM) ≤ 1
  ∧ length (traces_of scenario ECG_mV) ≤ 2 ∧ length (traces_of scenario ECG_uV) ≤ 2).
Proof.
  split; [exact scenario_NoDup|].
  split; [exact scenario_main|].
  exact (trace_count_bounds scenario (expected_scene scenario)
           scenario_NoDup
           scenario_main).
Defined.

Lemma trace_names_distinct_example :
  (NoDup (columns scenario))
  ∧ (main scenario = Ok (expected_scene scenario))
  ∧ (NoDup (go.name <$> data (fig (expected_scene scenario)))
  ∧ ∀ tr, tr ∈ data (fig (expected_scene scenario)) → go.name tr ∈ trace_labels).
Proof.
  split; [exact scenario_NoDup|].
  split; [exact scenario_main|].
  exact (trace_names_distinct scenario (expected_scene scenario)
           scenario_NoDup
           scenario_main).
Defined.

Lemma axis_titles_example :
  (NoDup (columns scenario))
  ∧ (main scenario = Ok (expected_scene scenario))
  ∧ (yaxis_title (fig (expected_scene scenario)) = Some "EEG & CM (μV)"
  ∧ yaxis2_title (fig (expected_scene scenario))
    = (if has_secondary_y (fig (expected_scene scenario)) then Some "ECG (mV) / CM (μV)" else None)
  ∧ (has_secondary_y (fig (expected_scene scenario)) = false ↔
     Forall (λ tr, go.secondary_y tr = false) (data (fig (expected_scene scenario))))
  ∧ (has_secondary_y (fig (expected_scene scenario)) = false ↔ data (fig (expected_scene scenario)) = traces_of scenario EEG)).
Proof.
  split; [exact scenario_NoDup|].
  split; [exact scenario_main|].
  exact (axis_titles scenario (expected_scene scenario)
           scenario_NoDup
           scenario_main).
Defined.

Lemma mv_button_restores_initial_example :
  (NoDup (columns scenario))
  ∧ (main scenario = Ok (expected_scene scenario))
  ∧ (∃ b_mv b_uv,
    updatemenus (expected_scene scenario) !! 1 = Some [b_mv; b_uv]
    ∧ label b_mv = "ECG in mV"
    ∧ args_visible b_mv = shown <$> data (fig (expected_scene scenario))
    ∧ ∀ current, select b_mv current = shown <$> data (fig (expected_scene scenario))).
Proof.
  split; [exact scenario_NoDup|].
  split; [exact scenario_main|].
  exact (mv_button_restores_initial scenario (expected_scene scenario)
           scenario_NoDup
           scenario_main).
Defined.

Lemma unit_toggle_without_ecg_example :
  (NoDup (columns eeg_only))
  ∧ (main eeg_only = Ok (expected_scene eeg_only))
  ∧ (ecg_raw_cols eeg_only = [])
  ∧ (map (map args_visible) (updatemenus (expected_scene eeg_only)) !! 1
  = Some [ replicate (length (data (fig (expected_scene eeg_only)))) true;
           replicate (length (data (fig (expected_scene eeg_only)))) true ]
  ∧ Forall (λ tr, shown tr = true) (data (fig (expected_scene eeg_only)))).
Proof.
  split; [exact eeg_only_NoDup|].
  split; [exact eeg_only_main|].
  split; [exact eeg_only_no_ecg|].
  exact (unit_toggle_without_ecg eeg_only (expected_scene eeg_only)
           eeg_only_NoDup
           eeg_only_main
           eeg_only_no_ecg).
Defined.

Lemma no_numeric_time_empty_traces_example :
  (NoDup (columns no_times))
  ∧ ("Time" ∈ columns no_times)
  ∧ (∃ c, c ∈ columns no_times ∧ role_name c)
  ∧ (∀ r, r ∈ rows no_times →
       notna (to_numeric (default NaN (r !! "Time"))) = false)
  ∧ (∃ s, main no_times = Ok s
       ∧ data (fig s) ≠ []
       ∧ ∀ tr, tr ∈ data (fig s) → go.x tr = [] ∧ go.y tr = []).
Proof.
  split; [exact no_times_NoDup|].
  split; [exact no_times_time|].
  split; [exact no_times_role|].
  split; [exact no_times_rows|].
  exact (no_numeric_time_empty_traces no_times
           no_times_NoDup
           no_times_time
           no_times_role
           no_times_rows).
Defined.

Lemma layout_from_header_example :
  (NoDup (columns scenario))
  ∧ (columns scenario_reversed = columns scenario)
  ∧ (main scenario = Ok (expected_scene scenario))
  ∧ (main scenario_reversed = Ok (expected_scene scenario_reversed))
  ∧ (updatemenus (expected_scene scenario_reversed) = updatemenus (expected_scene scenario)
  ∧ has_secondary_y (fig (expected_scene scenario_reversed)) = has_secondary_y (fig (expected_scene scenario))
  ∧ yaxis_title (fig (expected_scene scenario_reversed)) = yaxis_title (fig (expected_scene scenario))
  ∧ yaxis2_title (fig (expected_scene scenario_reversed)) = yaxis2_title (fig (expected_scene scenario))
  ∧ style <$> data (fig (expected_scene scenario_reversed)) = style <$> data (fig (expected_scene scenario))).
Proof.
  split; [exact scenario_NoDup|].
  split; [exact scenario_reversed_columns|].
  split; [exact scenario_main|].
  split; [exact scenario_reversed_main|].
  exact (layout_from_header scenario scenario_reversed (expected_scene scenario) (expected_scene scenario_reversed)
           scenario_NoDup
           scenario_reversed_columns
           scenario_main
           scenario_reversed_main).
Defined.

Lemma row_order_irrelevant_example :
  (Transitive (@num_le Z_Number))
  ∧ (AntiSymm (=) (@num_le Z_Number))
  ∧ (NoDup (columns scenario))
  ∧ (columns scenario_reversed = columns scenario)
  ∧ (rows scenario_reversed ≡ₚ rows scenario)
  ∧ (main scenario = Ok (expected_scene scenario))
  ∧ (∃ s', main scenario_reversed = Ok s'
        ∧ updatemenus s' = updatemenus (expected_scene scenario)
        ∧ Forall2 (λ tr' tr, style tr' = style tr
                             ∧ go.x tr' = go.x tr
                             ∧ points tr' ≡ₚ points tr)
            (data (fig s')) (data (fig (expected_scene scenario)))).
Proof.
  split; [exact Z_num_le_trans|].
  split; [exact Z_num_le_antisymm|].
  split; [exact scenario_NoDup|].
  split; [exact scenario_reversed_columns|].
  split; [exact scenario_reversed_rows|].
  split; [exact scenario_main|].
  exact (row_order_irrelevant scenario scenario_reversed (expected_scene scenario)
           Z_num_le_trans
           Z_num_le_antisymm
           scenario_NoDup
           scenario_reversed_columns
           scenario_reversed_rows
           scenario_main).
Defined.

Lemma filter_columns_keeps_example :
  ("Time" ∈ columns scenario)
  ∧ (∃ df' rest,
    filter_columns scenario "Time" = Ok df'
    ∧ columns df' = "Time" :: rest
    ∧ rest `sublist_of` columns scenario
    ∧ (∀ c, c ∈ rest ↔ c ∈ columns scenario ∧ c ≠ "Time" ∧ dropped c = false)
    ∧ length (rows df') = length (rows scenario)
    ∧ (NoDup (columns scenario) → NoDup (columns df'))
    ∧ (∀ c, c ∈ columns df' → getitem df' c = getitem scenario c)
    ∧ (∀ c, c ∉ columns df' → getitem df' c = Raise KeyError)).
Proof.
  split; [exact scenario_time|].
  exact (filter_columns_keeps scenario "Time"
           scenario_time).
Defined.

Lemma filter_columns_idempotent_example :
  ("Time" ∈ columns scenario)
  ∧ (∃ df', filter_columns scenario "Time" = Ok df' ∧ filter_columns df' "Time" = Ok df').
Proof.
  split; [exact scenario_time|].
  exact (filter_columns_idempotent scenario "Time"
           scenario_time).
Defined.

Lemma split_roles_bounds_example :
  (NoDup (columns scenario))
  ∧ (split_roles (columns scenario) = (["Fz"], ["X1:LEOG"], ["CM"]))
  ∧ (NoDup (["Fz"] ++ ["X1:LEOG"] ++ ["CM"])
  ∧ length ["Fz"] ≤ 21 ∧ length ["X1:LEOG"] ≤ 2 ∧ length ["CM"] ≤ 1
  ∧ length ["Fz"] + length ["X1:LEOG"] + length ["CM"] ≤ length (columns scenario)).
Proof.
  split; [exact scenario_NoDup|].
  split; [exact scenario_split|].
  exact (split_roles_bounds (columns scenario) ["Fz"] ["X1:LEOG"] ["CM"]
           scenario_NoDup
           scenario_split).
Defined.

Lemma unit_mode_visibility_entries_example :
  (unit_mode_visibility two_ecg_traces two_ecg_indices "uV" = Ok [false; true])
  ∧ (length [false; true] = length (data two_ecg_traces)
  ∧ (∀ i tr, data two_ecg_traces !! i = Some tr →
       i ∉ idx_ECG_mV two_ecg_indices → i ∉ idx_ECG_uV two_ecg_indices → [false; true] !! i = Some (shown tr))
  ∧ (∀ i, i ∈ idx_ECG_uV two_ecg_indices →
       i < length (data two_ecg_traces) ∧ [false; true] !! i = Some (bool_decide ("uV" ≠ "mV")))
  ∧ (∀ i, i ∈ idx_ECG_mV two_ecg_indices → i ∉ idx_ECG_uV two_ecg_indices →
       i < length (data two_ecg_traces) ∧ [false; true] !! i = Some (bool_decide ("uV" = "mV")))).
Proof.
  split; [exact two_ecg_uV|].
  exact (unit_mode_visibility_entries two_ecg_traces two_ecg_indices "uV" [false; true]
           two_ecg_uV).
Defined.
